(** * Insights front end: resource bindings and presentation components

    A shallow embedding of the script parts of the Insights front end
    (the resource helpers of the api module, [ChartBlock.vue], the query
    list page, [Notebook.vue], [Toast.vue] and [NewDialogWithTypes.vue])
    together with the properties their specification states.

    Conventions of the embedding:
    - a JavaScript object used as a bag of options is a [gmap string value];
    - a string is a [string] of the standard library, and [<] on strings
      is its code-unit order [String.ltb];
    - an optional string ([docname?: string], a [String] prop that may be
      absent) is an [option string], and the truthiness test of the source
      is written out ([None] and the empty string are falsy);
    - an [async] function is a computation in a state-and-rejection monad:
      [await] is the monadic bind, a rejected promise or a thrown
      [TypeError] skips the rest of the function body;
    - calls into collaborators that live outside the embedded files
      (frappe-ui, vue-router, the [use...] composables, the server) are
      recorded in a trace, and what they return is a parameter, gathered
      per component in a record named [collaborators]. *)

From Stdlib Require Import ZArith String Ascii List Permutation Sorted Lia.
From Stdlib Require Import OrderedTypeEx.
From stdpp Require Import base option list strings gmap.

Local Open Scope string_scope.
Local Open Scope list_scope.

(** ** JavaScript values, truthiness and [Array.prototype.sort] *)

Module Js.

#[warnings="-register-all"]
Inductive value : Type :=
| VUndefined
| VBool (b : bool)
| VNum (n : Z)
| VStr (s : string)
| VObj (fields : list (string * value)).

(** Truthiness of an optional string: [undefined] and the empty string
    are falsy, every other string is truthy. *)
Definition truthy (s : option string) : bool :=
  match s with
  | None => false
  | Some EmptyString => false
  | Some (String _ _) => true
  end.

(** Truthiness of the value found under a key of an object, if any. *)
Definition truthy_value (v : option value) : bool :=
  match v with
  | None | Some VUndefined => false
  | Some (VBool b) => b
  | Some (VNum n) => negb (n =? 0)%Z
  | Some (VStr s) => truthy (Some s)
  | Some (VObj _) => true
  end.

(** [a || b] where [a] is an optional string and [b] a string. *)
Definition or_else (a : option string) (b : string) : string :=
  match a with
  | Some s => if truthy a then s else b
  | None => b
  end.

(** [{ ...base, ...o }]: the keys of a spread object win over the keys
    written before it; spreading [undefined] adds nothing. *)
Definition spread (o : option (gmap string value))
    (base : gmap string value) : gmap string value :=
  match o with
  | Some m => m ∪ base
  | None => base
  end.

(** [Array.prototype.sort(comparefn)] is a built-in of the engine. It is
    modelled as a stable insertion sort: each element, left to right, is
    placed in the sorted prefix in front of the first element that
    [comparefn] puts it before (a negative result), hence behind every
    element it ties with. Where [comparefn] never answers zero, the order
    among the elements it does not tell apart is left to the engine; the
    order found here is one an engine may produce. *)
Fixpoint insert {A : Type} (comparefn : A -> A -> Z) (x : A) (sorted : list A)
    : list A :=
  match sorted with
  | [] => [x]
  | y :: rest =>
      if (comparefn x y <? 0)%Z then x :: y :: rest
      else y :: insert comparefn x rest
  end.

Definition sort {A : Type} (comparefn : A -> A -> Z) (array : list A) : list A :=
  fold_left (fun sorted x => insert comparefn x sorted) array [].

(** [String.prototype.toLowerCase] on the code units of the ASCII range;
    the theorems below hold for any lowering function and take it as a
    parameter, this one serves the worked examples. *)
Definition lower_ascii (c : ascii) : ascii :=
  let n := N_of_ascii c in
  if ((65 <=? n) && (n <=? 90))%N then ascii_of_N (n + 32) else c.

Fixpoint toLowerCase (s : string) : string :=
  match s with
  | EmptyString => EmptyString
  | String c rest => String (lower_ascii c) (toLowerCase rest)
  end.

End Js.

(** ** Asynchronous functions: state, trace and rejection *)

Module Async.

Inductive error : Type :=
| TypeError (msg : string)
| Rejection (payload : string).

Inductive outcome (A : Type) : Type :=
| Resolved (a : A)
| Rejected (e : error).
Arguments Resolved {A} a.
Arguments Rejected {A} e.

(** What the promise of a collaborator settles to. *)
Inductive settled (A : Type) : Type :=
| Fulfilled (a : A)
| Failed (payload : string).
Arguments Fulfilled {A} a.
Arguments Failed {A} payload.

Definition async (W A : Type) : Type := W -> outcome A * W.

Definition ret {W A : Type} (a : A) : async W A := fun w => (Resolved a, w).

Definition bind {W A B : Type} (m : async W A) (k : A -> async W B)
    : async W B :=
  fun w =>
    match m w with
    | (Resolved a, w') => k a w'
    | (Rejected e, w') => (Rejected e, w')
    end.

Definition throw {W A : Type} (e : error) : async W A :=
  fun w => (Rejected e, w).

Definition modify {W : Type} (f : W -> W) : async W unit :=
  fun w => (Resolved tt, f w).

(** [await p] where [p] settles to [s]. *)
Definition await {W A : Type} (s : settled A) : async W A :=
  match s with
  | Fulfilled a => ret a
  | Failed payload => throw (Rejection payload)
  end.

(** Property access [o.field] on the result of a lookup that may be
    [undefined]: reading a property of [undefined] throws a [TypeError]. *)
Definition deref {W A B : Type} (o : option A) (field : A -> B) : async W B :=
  match o with
  | Some a => ret (field a)
  | None => throw (TypeError "Cannot read properties of undefined")
  end.

Module Notations.
Notation "'let!' x <- m ; k" := (bind m (fun x => k))
  (at level 10, x name, m at level 100, k at level 200,
   format "'[v' 'let!'  x  <-  m ; '/' k ']'").
Notation "'do!' m ; k" := (bind m (fun _ => k))
  (at level 10, m at level 100, k at level 200,
   format "'[v' 'do!'  m ; '/' k ']'").
End Notations.

End Async.

(** ** The api module: [getDocumentResource] and its [triggerFetch] *)

Module DocumentResource.
Import Js.

(** The [get] operation of a frappe-ui document resource, as far as
    [triggerFetch] observes and drives it: the [loading] flag, and two
    ghost counters, the requests not yet settled and the requests ever
    issued. *)
Record get_operation : Type := {
  loading : bool;
  in_flight : nat;
  remote_calls : nat
}.

Record resource : Type := {
  options : gmap string value;
  get : get_operation
}.

Record collaborators : Type := {
  (** [./whitelistedMethods], not among the embedded files *)
  getWhitelistedMethods : string -> value;
  (** frappe-ui's constructor: the [get] operation it starts a resource
      with, or nothing when it answers [undefined] (as it does for
      options without a doctype or a name) *)
  createDocumentResource : gmap string value -> option get_operation
}.

(** frappe-ui's [resource.get.fetch()]: raises [loading] before the
    request leaves and issues exactly one remote call. *)
Definition fetch (g : get_operation) : get_operation :=
  {| loading := true;
     in_flight := S (in_flight g);
     remote_calls := S (remote_calls g) |}.

(** frappe-ui's continuation when a request settles, either way:
    [loading] is cleared. With nothing in flight there is nothing to
    settle. *)
Definition settle (g : get_operation) : get_operation :=
  match in_flight g with
  | O => g
  | S n =>
      {| loading := false; in_flight := n; remote_calls := remote_calls g |}
  end.

(** The object literal handed to [createDocumentResource]:
    [{ doctype, name: docname || doctype,
       whitelistedMethods: getWhitelistedMethods(doctype), ...options }]. *)
Definition resource_options (c : collaborators) (doctype : string)
    (docname : option string) (opts : option (gmap string value))
    : gmap string value :=
  spread opts
    (<["whitelistedMethods" := getWhitelistedMethods c doctype]>
       (<["name" := VStr (or_else docname doctype)]>
          (<["doctype" := VStr doctype]> ∅))).

(** The value [options] brings for [key], if any. *)
Definition supplied (opts : option (gmap string value)) (key : string)
    : option value :=
  match opts with
  | Some m => m !! key
  | None => None
  end.

(** [getDocumentResource]: the resource frappe-ui creates, with
    [triggerFetch] attached. The assignment [resource.triggerFetch = ...]
    is not guarded: when the constructor has answered [undefined] it
    throws a [TypeError] and no resource is returned. *)
Definition getDocumentResource (c : collaborators) (doctype : string)
    (docname : option string) (opts : option (gmap string value))
    : Async.outcome resource :=
  let o := resource_options c doctype docname opts in
  match createDocumentResource c o with
  | Some g => Async.Resolved {| options := o; get := g |}
  | None =>
      Async.Rejected (Async.TypeError "Cannot set properties of undefined")
  end.

(** [resource.triggerFetch]:
    [!resource.get.loading && (await resource.get.fetch())]. Nothing
    follows the [await], so the call is its synchronous part. *)
Definition triggerFetch (r : resource) : resource :=
  if negb (loading (get r))
  then {| options := options r; get := fetch (get r) |}
  else r.

(** What happens to a resource that is fetched through [triggerFetch]:
    a caller triggers a fetch, or the request in flight settles. *)
Inductive event : Type :=
| TriggerFetch
| Settled.

Definition step (r : resource) (e : event) : resource :=
  match e with
  | TriggerFetch => triggerFetch r
  | Settled => {| options := options r; get := settle (get r) |}
  end.

Definition run (r : resource) (evs : list event) : resource :=
  fold_left step evs r.

(** [loading] tells whether a request is in flight: the state in which
    frappe-ui hands out a resource, idle or with its first fetch
    pending. *)
Definition consistent (g : get_operation) : Prop :=
  in_flight g = (if loading g then 1 else 0)%nat.

(** The [get] operation is public: besides [triggerFetch], a caller (or
    frappe-ui itself, in [reload]) may call [resource.get.fetch()]
    directly. *)
Inductive activity : Type :=
| ViaTriggerFetch
| DirectFetch
| RequestSettles.

Definition act (r : resource) (a : activity) : resource :=
  match a with
  | ViaTriggerFetch => triggerFetch r
  | DirectFetch => {| options := options r; get := fetch (get r) |}
  | RequestSettles => {| options := options r; get := settle (get r) |}
  end.

Definition play (r : resource) (activities : list activity) : resource :=
  fold_left act activities r.

End DocumentResource.

(** ** [ChartBlock.vue]: binding a chart, and the dashboard options *)

Module ChartBlock.
Import Async Async.Notations.

(** Calls that leave the component during [setup], in program order. *)
Inductive effect : Type :=
| CreateChart
| Emit (event : string) (payload : string)
| UseChart (chartName : string)
| EnableAutoSave (chartName : string)
| Provide (key : string) (chartName : string)
| UseQueries
| ReloadQueries
| UseDashboards
| ReloadDashboards
| Inject (key : string)
| Watch.

Definition is_create (e : effect) : bool :=
  match e with CreateChart => true | _ => false end.

(** The chart a [useChart] handle is bound to. *)
Record chart_handle : Type := { chart_name : string }.

Record world : Type := {
  trace : list effect;
  chart : option chart_handle
}.

Record collaborators : Type := {
  (** what [createChart()] of [@/query/useChart] settles to *)
  createChart : settled string;
  (** what [useQueries()] and [queries.reload()] settle to *)
  useQueries : settled unit;
  queries_reload : settled unit
}.

Definition log (e : effect) : async world unit :=
  modify (fun w => {| trace := trace w ++ [e]; chart := chart w |}).

Definition emit (event payload : string) : async world unit :=
  log (Emit event payload).

(** [chart = useChart(name)] *)
Definition useChart (name : string) : async world unit :=
  do! log (UseChart name);
  modify (fun w => {| trace := trace w; chart := Some {| chart_name := name |} |}).

(** A method call on the handle held in [chart]. *)
Definition on_chart (f : string -> effect) : async world unit :=
  fun w =>
    match chart w with
    | Some h => log (f (chart_name h)) w
    | None => throw (TypeError "Cannot read properties of null") w
    end.

(** The top of [script setup]: the chart is created when the prop is
    falsy, adopted otherwise; then auto-save is enabled and the handle
    provided to the child components. *)
Definition bind_chart (c : collaborators) (props_chartName : option string)
    : async world unit :=
  do! (match props_chartName with
       | None | Some EmptyString =>
           do! log CreateChart;
           let! chartName <- await (createChart c);
           do! emit "setChartName" chartName;
           useChart chartName
       | Some chartName =>
           useChart chartName
       end);
  do! on_chart EnableAutoSave;
  on_chart (Provide "chart").

(** The rest of [script setup], as far as it calls out: the queries are
    fetched and awaited, the dashboards are fetched without waiting, the
    notifier is injected and the dialog watcher installed. *)
Definition setup (c : collaborators) (props_chartName : option string)
    : async world unit :=
  do! bind_chart c props_chartName;
  do! log UseQueries;
  let! _ <- await (useQueries c);
  do! log ReloadQueries;
  let! _ <- await (queries_reload c);
  do! log UseDashboards;
  do! log ReloadDashboards;
  do! log (Inject "$notify");
  log Watch.

Definition start : world := {| trace := []; chart := None |}.

(** The number of create calls a run has made. *)
Definition creates (w : world) : nat :=
  length (List.filter is_create (trace w)).

(** *** [dashboardOptions] *)

Record dashboard : Type := { name : string; title : string }.

Record select_option : Type := { label : string; value : string }.

(** The shared reactive object returned by [useDashboards()]. *)
Record dashboards : Type := { dashboards_list : list dashboard }.

Section DashboardOptions.
Variable toLowerCase : string -> string.

(** [(a, b) => a.title.toLowerCase() < b.title.toLowerCase() ? -1 : 1] *)
Definition by_title (a b : dashboard) : Z :=
  if String.ltb (toLowerCase (title a)) (toLowerCase (title b))
  then (-1)%Z else 1%Z.

Definition to_option (d : dashboard) : select_option :=
  {| label := title d; value := name d |}.

(** Evaluating the computed property: [sort] works on the array it is
    called on and returns that same array, so the evaluation yields the
    options together with the store it leaves behind. *)
Definition dashboardOptions (store : dashboards)
    : list select_option * dashboards :=
  let sorted := Js.sort by_title (dashboards_list store) in
  (map to_option sorted, {| dashboards_list := sorted |}).

(** Non-decreasing lowered labels, and non-decreasing lowered titles. *)
Definition label_le (x y : select_option) : Prop :=
  String.leb (toLowerCase (label x)) (toLowerCase (label y)) = true.

Definition title_le (x y : dashboard) : Prop :=
  String.leb (toLowerCase (title x)) (toLowerCase (title y)) = true.

End DashboardOptions.

End ChartBlock.

(** ** [NewDialogWithTypes.vue]: the type selector *)

Module NewDialogWithTypes.

(** What the component emits. *)
Inductive emitted : Type :=
| UpdateShow (value : bool).

Section Dialog.
(** The state of the caller, on which the handlers act. *)
Variable P : Type.

Record type_option : Type := {
  label : string;
  description : string;
  icon : string;
  tag : option string;
  handler : list Js.value -> P -> P
}.

Record props : Type := {
  show : bool;
  title : option string;
  types : list type_option
}.

(** The emissions of the component, the handler calls it has made (which
    option, with which arguments) and the state of the caller. *)
Record world : Type := {
  emits : list emitted;
  calls : list (nat * list Js.value);
  caller : P
}.

(** The computed [show]: the getter reads the prop, the setter emits
    [update:show]. *)
Definition show_get (p : props) : bool := show p.

Definition show_set (value : bool) (w : world) : world :=
  {| emits := emits w ++ [UpdateShow value]; calls := calls w;
     caller := caller w |}.

(** [@click="type.handler()"] on the entry at [index]. *)
Definition click (p : props) (index : nat) (w : world) : world :=
  match types p !! index with
  | Some type =>
      {| emits := emits w;
         calls := calls w ++ [(index, [])];
         caller := handler type [] (caller w) |}
  | None => w
  end.

End Dialog.

Arguments label {P} _.
Arguments description {P} _.
Arguments icon {P} _.
Arguments tag {P} _.
Arguments handler {P} _ _ _.
Arguments title {P} _.
Arguments show {P} _.
Arguments types {P} _.
Arguments emits {P} _.
Arguments calls {P} _.
Arguments caller {P} _.
Arguments show_get {P} _.
Arguments show_set {P} _ _.
Arguments click {P} _ _ _.

End NewDialogWithTypes.

(** ** The query list page: [openQueryEditor] and the query builder types *)

Module QueryList.
Import Async Async.Notations.

Record notebook : Type := { name : string; title : string }.

Record query : Type := { query_name : string }.

Inductive effect : Type :=
| CreatePage (notebook : string)
| CreateQuery (is_assisted_query : option Z)
| RouterPush (route : string) (params : list (string * string)).

Record collaborators : Type := {
  (** what [notebooks.createPage(notebook)] settles to *)
  createPage : string -> settled string;
  (** what [queries.create(new_query)] settles to *)
  queries_create : option Z -> settled query
}.

Definition log (e : effect) : async (list effect) unit :=
  modify (fun trace => trace ++ [e]).

Definition find_uncategorized (notebooks_list : list notebook)
    : option notebook :=
  List.find (fun notebook => String.eqb (title notebook) "Uncategorized")
    notebooks_list.

Definition openQueryEditor (c : collaborators)
    (notebooks_list : list notebook) (type : string)
    : async (list effect) unit :=
  if String.eqb type "notebook" then
    let uncategorized := find_uncategorized notebooks_list in
    let! arg <- deref uncategorized name;
    do! log (CreatePage arg);
    let! page_name <- await (createPage c arg);
    let! target <- deref uncategorized name;
    log (RouterPush "NotebookPage" [("notebook", target); ("page", page_name)])
  else
    let new_query : option Z := None in
    let new_query := if String.eqb type "visual" then Some 1%Z else new_query in
    let new_query := if String.eqb type "classic" then Some 0%Z else new_query in
    do! log (CreateQuery new_query);
    let! query <- await (queries_create c new_query);
    log (RouterPush "QueryBuilder" [("name", query_name query)]).

(** The page: the [new_dialog] ref and the calls made so far. *)
Record page : Type := {
  new_dialog : bool;
  effects : list effect
}.

(** A handler of the page: [() => openQueryEditor(type)]. The promise
    the call returns is dropped. *)
Definition open_editor (c : collaborators) (notebooks_list : list notebook)
    (type : string) (_ : list Js.value) (p : page) : page :=
  {| new_dialog := new_dialog p;
     effects := snd (openQueryEditor c notebooks_list type (effects p)) |}.

Definition queryBuilderTypes (c : collaborators)
    (notebooks_list : list notebook)
    : list (NewDialogWithTypes.type_option page) :=
  [ {| NewDialogWithTypes.label := "Notebook";
       NewDialogWithTypes.description :=
         "Create a query using the notebook interface";
       NewDialogWithTypes.icon := "book";
       NewDialogWithTypes.tag := Some "beta";
       NewDialogWithTypes.handler := open_editor c notebooks_list "notebook" |};
    {| NewDialogWithTypes.label := "Visual";
       NewDialogWithTypes.description :=
         "Create a query using the visual interface";
       NewDialogWithTypes.icon := "box";
       NewDialogWithTypes.tag := Some "beta";
       NewDialogWithTypes.handler := open_editor c notebooks_list "visual" |};
    {| NewDialogWithTypes.label := "Classic";
       NewDialogWithTypes.description :=
         "Create a query using the classic interface";
       NewDialogWithTypes.icon := "layout";
       NewDialogWithTypes.tag := None;
       NewDialogWithTypes.handler := open_editor c notebooks_list "classic" |} ].

(** The props the page gives the dialog:
    [v-model:show="new_dialog" title="Select Interface Type"
     :types="queryBuilderTypes"]. *)
Definition dialog_props (c : collaborators) (notebooks_list : list notebook)
    (p : page) : NewDialogWithTypes.props page :=
  {| NewDialogWithTypes.show := new_dialog p;
     NewDialogWithTypes.title := Some "Select Interface Type";
     NewDialogWithTypes.types := queryBuilderTypes c notebooks_list |}.

End QueryList.

(** ** [Notebook.vue]: the delete dialog *)

Module Notebook.
Import Async Async.Notations.

Inductive effect : Type :=
| DeleteNotebook
| SetShowDeleteDialog (value : bool)
| ReloadNotebooks
| RouterPush (route : string).

Definition is_remote_call (e : effect) : bool :=
  match e with
  | DeleteNotebook | ReloadNotebooks => true
  | SetShowDeleteDialog _ | RouterPush _ => false
  end.

Section Page.
(** The state of the bound notebook resource (its document and pages)
    and of the separate notebooks list resource. *)
Variables (R L : Type).

Record world : Type := {
  showDeleteDialog : bool;
  notebook : R;
  notebooks : L;
  trace : list effect
}.

Record collaborators : Type := {
  (** [notebook.deleteNotebook()] of [useNotebook] *)
  deleteNotebook : R -> settled unit * R;
  (** [useNotebooks().reload()] *)
  reload : L -> settled unit * L
}.

Definition log (e : effect) : async world unit :=
  modify (fun w =>
    {| showDeleteDialog := showDeleteDialog w; notebook := notebook w;
       notebooks := notebooks w; trace := trace w ++ [e] |}).

Definition set_showDeleteDialog (value : bool) : async world unit :=
  do! log (SetShowDeleteDialog value);
  modify (fun w =>
    {| showDeleteDialog := value; notebook := notebook w;
       notebooks := notebooks w; trace := trace w |}).

Definition call_deleteNotebook (c : collaborators) : async world unit :=
  do! log DeleteNotebook;
  fun w =>
    let (s, r) := deleteNotebook c (notebook w) in
    await s {| showDeleteDialog := showDeleteDialog w; notebook := r;
               notebooks := notebooks w; trace := trace w |}.

Definition call_reload (c : collaborators) : async world unit :=
  do! log ReloadNotebooks;
  fun w =>
    let (s, l) := reload c (notebooks w) in
    await s {| showDeleteDialog := showDeleteDialog w; notebook := notebook w;
               notebooks := l; trace := trace w |}.

(** The [Yes] button. *)
Definition handleDelete (c : collaborators) : async world unit :=
  do! call_deleteNotebook c;
  do! set_showDeleteDialog false;
  do! call_reload c;
  log (RouterPush "NotebookList").

(** The [Cancel] button: [showDeleteDialog = false]. *)
Definition cancel : async world unit := set_showDeleteDialog false.

(** The [Delete] entry of the dropdown: [showDeleteDialog = true]. *)
Definition open_dialog : async world unit := set_showDeleteDialog true.

End Page.

Arguments showDeleteDialog {R L} _.
Arguments notebook {R L} _.
Arguments notebooks {R L} _.
Arguments trace {R L} _.
Arguments deleteNotebook {R L} _ _.
Arguments reload {R L} _ _.
Arguments log {R L} _ _.
Arguments set_showDeleteDialog {R L} _ _.
Arguments call_deleteNotebook {R L} _ _.
Arguments call_reload {R L} _ _.
Arguments handleDelete {R L} _ _.
Arguments cancel {R L} _.
Arguments open_dialog {R L} _.

End Notebook.

(** ** [Toast.vue]: the toast root and the visibility of a toast *)

Module Toast.

Record element : Type := {
  tag : string;
  id : string;
  style : list (string * string)
}.

Definition root_id : string := "frappeui-toast-root".

(** The document is the list of its elements, in the order they were
    added; [document.body.appendChild] adds at the end. *)
Definition getElementById (document : list element) (i : string)
    : option element :=
  List.find (fun e => String.eqb (id e) i) document.

Definition root : element :=
  {| tag := "div";
     id := root_id;
     style := [("position", "fixed"); ("display", "flex"); ("top", "16px");
               ("right", "16px"); ("bottom", "16px"); ("left", "16px");
               ("zIndex", "9999"); ("pointerEvents", "none");
               ("padding", "1rem"); ("flex-direction", "column");
               ("justify-content", "end"); ("align-items", "end")] |}.

(** The [created] hook. *)
Definition created (document : list element) : list element :=
  match getElementById document root_id with
  | None => document ++ [root]
  | Some _ => document
  end.

Definition is_root (e : element) : bool := String.eqb (id e) root_id.

Definition count_roots (document : list element) : nat :=
  length (List.filter is_root document).

(** One toast: the [timeout] prop (a number of seconds, taken among the
    integers), the [shown] datum, the due
    times (milliseconds) of the callbacks it has handed to [setTimeout]
    and that have not run yet, and a ghost count of the callbacks that
    have run. *)
Record toast : Type := {
  timeout : Z;
  shown : bool;
  timers : list Z;
  fired : nat
}.

(** [data()] *)
Definition data (timeout : Z) : toast :=
  {| timeout := timeout; shown := false; timers := []; fired := 0 |}.

(** The delay of a timer is kept in a signed 32-bit field: a [delay]
    from 0 to 2^31 - 1 milliseconds is waited for, any other one, negative
    or too large, does not fit and the callback is due at once. *)
Definition timer_delay (delay : Z) : Z :=
  if ((0 <=? delay) && (delay <=? 2147483647))%Z then delay else 0%Z.

(** [setTimeout(callback, delay)] at time [now]. *)
Definition due (now delay : Z) : Z := (now + timer_delay delay)%Z.

(** The [mounted] hook, run at time [now]. *)
Definition mounted (now : Z) (t : toast) : toast :=
  {| timeout := timeout t;
     shown := true;
     timers := timers t ++ [due now (timeout t * 1000)];
     fired := fired t |}.

(** The close button: [shown = false]. *)
Definition dismiss (t : toast) : toast :=
  {| timeout := timeout t; shown := false; timers := timers t;
     fired := fired t |}.

(** The timer callback: [this.shown = false]. *)
Definition callback (t : toast) : toast :=
  {| timeout := timeout t; shown := false; timers := timers t;
     fired := S (fired t) |}.

(** The event loop at time [now]: every callback that is due runs, once,
    and leaves the queue. *)
Definition run_timers (now : Z) (t : toast) : toast :=
  let ready := List.filter (fun d => (d <=? now)%Z) (timers t) in
  let later := List.filter (fun d => negb (d <=? now)%Z) (timers t) in
  fold_left (fun t' _ => callback t') ready
    {| timeout := timeout t; shown := shown t; timers := later;
       fired := fired t |}.

(** A page with any number of toasts. *)
Record page : Type := {
  document : list element;
  now : Z;
  toasts : list toast
}.

Inductive action : Type :=
| New (timeout : Z)
| Mount (i : nat)
| Dismiss (i : nat)
| Elapse (dt : Z).

Definition step (p : page) (a : action) : page :=
  match a with
  | New timeout =>
      {| document := created (document p); now := now p;
         toasts := toasts p ++ [data timeout] |}
  | Mount i =>
      {| document := document p; now := now p;
         toasts := alter (mounted (now p)) i (toasts p) |}
  | Dismiss i =>
      {| document := document p; now := now p;
         toasts := alter dismiss i (toasts p) |}
  | Elapse dt =>
      let now' := (now p + Z.max 0 dt)%Z in
      {| document := document p; now := now';
         toasts := map (run_timers now') (toasts p) |}
  end.

Definition run (p : page) (actions : list action) : page :=
  fold_left step actions p.

Definition is_new (a : action) : bool :=
  match a with New _ => true | _ => false end.

End Toast.

(** ** [ChartBlock.vue]: the selected query and the dashboard dialog *)

Module ChartBlockActions.
Import Async Async.Notations.

Record query : Type := { name : string; title : string }.

Record query_option : Type := {
  label : string;
  value : string;
  description : string
}.

(** [queries.list.map((query) => ({ label: query.title,
      value: query.name, description: query.name }))] *)
Definition queryOptions (queries_list : list query) : list query_option :=
  map (fun query =>
         {| label := title query; value := name query;
            description := name query |})
    queries_list.

(** [queryOptions.find((op) => op.value === chart.doc.query)]; a chart
    without a query has [chart.doc.query] undefined, which is strictly
    equal to no string. *)
Definition selectedQuery (queries_list : list query)
    (doc_query : option string) : option query_option :=
  List.find
    (fun op =>
       match doc_query with
       | Some q => String.eqb (value op) q
       | None => false
       end)
    (queryOptions queries_list).

Inductive effect : Type :=
| AddToDashboard (dashboard : string)
| Notify (appearance title message : string).

(** The refs of the dashboard dialog and the calls made so far. *)
Record world : Type := {
  toDashboard : option ChartBlock.select_option;
  showDashboardDialog : bool;
  addingToDashboard : bool;
  trace : list effect
}.

Record collaborators : Type := {
  (** what [chart.addToDashboard(dashboard)] settles to *)
  chart_addToDashboard : string -> settled unit
}.

Definition log (e : effect) : async world unit :=
  modify (fun w =>
    {| toDashboard := toDashboard w;
       showDashboardDialog := showDashboardDialog w;
       addingToDashboard := addingToDashboard w;
       trace := trace w ++ [e] |}).

Definition set_showDashboardDialog (value : bool) : async world unit :=
  modify (fun w =>
    {| toDashboard := toDashboard w;
       showDashboardDialog := value;
       addingToDashboard := addingToDashboard w;
       trace := trace w |}).

(** The [Add] button. *)
Definition addToDashboard (c : collaborators) : async world unit :=
  fun w =>
    match toDashboard w with
    | None => ret tt w
    | Some selected =>
        (do! log (AddToDashboard (ChartBlock.value selected));
         let! _ <- await (chart_addToDashboard c (ChartBlock.value selected));
         do! set_showDashboardDialog false;
         log (Notify "success" "Success" "Chart added to dashboard")) w
    end.

End ChartBlockActions.

(** ** The query list page: the new-query form *)

Module QueryListForm.
Import Async Async.Notations.

Record data_source : Type := { name : string; title : string }.

Record source_option : Type := { label : string; value : string }.

(** [[{ label: 'Select a Data Source', value: '' },
      ...sources.list.map((s) => ({ label: s.title, value: s.name }))]] *)
Definition dataSourceOptions (sources_list : list data_source)
    : list source_option :=
  {| label := "Select a Data Source"; value := EmptyString |}
  :: map (fun s => {| label := title s; value := name s |}) sources_list.

Record new_query : Type := { dataSource : string; query_title : string }.

Inductive effect : Type :=
| CreateQuery (data_source title : string)
| NextTick
| RouterPush (route : string) (params : list (string * string)).

Record world : Type := {
  newQuery : new_query;
  queries_creating : bool;
  trace : list effect
}.

Record collaborators : Type := {
  (** what [queries.create({ data_source, title })] settles to: the name
      of the new query *)
  queries_create : string -> string -> settled string
}.

(** [!newQuery.value.dataSource || !newQuery.value.title
      || queries.creating] *)
Definition createDisabled (w : world) : bool :=
  negb (Js.truthy (Some (dataSource (newQuery w))))
  || negb (Js.truthy (Some (query_title (newQuery w))))
  || queries_creating w.

Definition log (e : effect) : async world unit :=
  modify (fun w =>
    {| newQuery := newQuery w; queries_creating := queries_creating w;
       trace := trace w ++ [e] |}).

Definition set_newQuery (value : new_query) : async world unit :=
  modify (fun w =>
    {| newQuery := value; queries_creating := queries_creating w;
       trace := trace w |}).

Definition createQuery (c : collaborators) : async world unit :=
  fun w =>
    let dataSource := dataSource (newQuery w) in
    let title := query_title (newQuery w) in
    (do! log (CreateQuery dataSource title);
     let! name <- await (queries_create c dataSource title);
     do! set_newQuery {| dataSource := EmptyString; query_title := EmptyString |};
     do! log NextTick;
     log (RouterPush "QueryBuilder" [("name", name)])) w.

End QueryListForm.

(** ** The query selector of the dashboard widgets: create, discard, done *)

Module QuerySelector.
Import Async Async.Notations.

Record query : Type := { name : string }.

Inductive effect : Type :=
| Create (is_assisted_query : Z)
| Delete (name : string)
| Reload
| Emit (event : string) (payload : string).

Section Selector.
(** The state behind [useQueries()]. *)
Variable Store : Type.

Record world : Type := {
  showCreateQuery : bool;
  newQuery : option query;
  queries : Store;
  trace : list effect
}.

Record collaborators : Type := {
  queries_create : Z -> Store -> settled query * Store;
  queries_delete : string -> Store -> settled unit * Store;
  queries_reload : Store -> settled unit * Store
}.

Definition log (e : effect) : async world unit :=
  modify (fun w =>
    {| showCreateQuery := showCreateQuery w; newQuery := newQuery w;
       queries := queries w; trace := trace w ++ [e] |}).

Definition set_showCreateQuery (value : bool) : async world unit :=
  modify (fun w =>
    {| showCreateQuery := value; newQuery := newQuery w;
       queries := queries w; trace := trace w |}).

Definition set_newQuery (value : option query) : async world unit :=
  modify (fun w =>
    {| showCreateQuery := showCreateQuery w; newQuery := value;
       queries := queries w; trace := trace w |}).

(** A call into the queries resource: it is logged, acts on the state
    behind the resource, and its promise is awaited. *)
Definition call {A : Type} (e : effect) (f : Store -> settled A * Store)
    : async world A :=
  do! log e;
  fun w =>
    let (s, q) := f (queries w) in
    await s {| showCreateQuery := showCreateQuery w; newQuery := newQuery w;
               queries := q; trace := trace w |}.

(** [newQuery.value.name]: [newQuery.value] is [null] until a query has
    been created. *)
Definition newQuery_name : async world string :=
  fun w =>
    match newQuery w with
    | Some q => ret (name q) w
    | None => throw (TypeError "Cannot read properties of null") w
    end.

Definition createQuery (c : collaborators) : async world unit :=
  let! created <- call (Create 1) (queries_create c 1%Z);
  do! set_newQuery (Some created);
  set_showCreateQuery true.

Definition deleteQuery (c : collaborators) : async world unit :=
  let! target <- newQuery_name;
  let! _ <- call (Delete target) (queries_delete c target);
  do! set_showCreateQuery false;
  set_newQuery None.

(** [selectQuery] run from its call to its end with no other handler in
    between; [selectQuery_begin] and [selectQuery_resume] below are its
    two halves, for the runs in which one comes in between. *)
Definition selectQuery (c : collaborators) : async world unit :=
  let! _ <- call Reload (queries_reload c);
  let! chosen <- newQuery_name;
  do! log (Emit "update:modelValue" chosen);
  do! set_showCreateQuery false;
  set_newQuery None.

(** [selectQuery] on either side of its [await]: until the reload has
    settled other handlers may run, and the rest of the body resumes in
    the state they leave. *)
Definition selectQuery_begin (c : collaborators) : async world unit :=
  call Reload (queries_reload c).

Definition selectQuery_resume : async world unit :=
  let! chosen <- newQuery_name;
  do! log (Emit "update:modelValue" chosen);
  do! set_showCreateQuery false;
  set_newQuery None.

(** The handlers the template wires: [@createOption], [Discard], [Done]. *)
Inductive handler : Type :=
| OnCreateOption
| OnDiscard
| OnDone.

Definition handle (c : collaborators) (w : world) (h : handler) : world :=
  match h with
  | OnCreateOption => snd (createQuery c w)
  | OnDiscard => snd (deleteQuery c w)
  | OnDone => snd (selectQuery c w)
  end.

Definition run (c : collaborators) (w : world) (hs : list handler) : world :=
  fold_left (handle c) hs w.

(** The dialog body is rendered only with a query to show. *)
Definition dialog_has_query (w : world) : Prop :=
  showCreateQuery w = true -> newQuery w <> None.

End Selector.

Arguments showCreateQuery {Store} _.
Arguments newQuery {Store} _.
Arguments queries {Store} _.
Arguments trace {Store} _.
Arguments queries_create {Store} _ _ _.
Arguments queries_delete {Store} _ _ _.
Arguments queries_reload {Store} _ _.
Arguments log {Store} _ _.
Arguments call {Store A} _ _ _.
Arguments newQuery_name {Store} _.
Arguments createQuery {Store} _ _.
Arguments deleteQuery {Store} _ _.
Arguments selectQuery {Store} _ _.
Arguments selectQuery_begin {Store} _ _.
Arguments selectQuery_resume {Store} _.
Arguments handle {Store} _ _ _.
Arguments run {Store} _ _ _.
Arguments dialog_has_query {Store} _.

End QuerySelector.

(** ** [DashboardWidgetsOptions.vue]: dragging a widget *)

Module DashboardWidgetsOptions.

Record widget : Type := { type : string }.

(** [emit('dragChange', widget)] and [emit('dragChange', false)]. *)
Inductive emitted : Type :=
| DragChange (payload : option widget).

(** The injected [dashboard] object and what the component has emitted. *)
Record world : Type := {
  draggingWidget : option widget;
  emits : list emitted
}.

Definition onDragStart (widget : widget) (w : world) : world :=
  {| draggingWidget := Some widget;
     emits := emits w ++ [DragChange (Some widget)] |}.

(** [@dragend="emit('dragChange', false)"] *)
Definition onDragEnd (w : world) : world :=
  {| draggingWidget := draggingWidget w;
     emits := emits w ++ [DragChange None] |}.

Inductive drag : Type :=
| DragStart (widget : widget)
| DragEnd.

Definition handle (w : world) (d : drag) : world :=
  match d with
  | DragStart widget => onDragStart widget w
  | DragEnd => onDragEnd w
  end.

Definition run (w : world) (ds : list drag) : world := fold_left handle ds w.

Definition emission (d : drag) : emitted :=
  match d with
  | DragStart widget => DragChange (Some widget)
  | DragEnd => DragChange None
  end.

End DashboardWidgetsOptions.

(** ** [Toast.vue]: the look of a toast *)

Module ToastAppearance.

(** [const appearance = ['success', 'info', 'warning', 'error']] *)
Definition appearance : list string := ["success"; "info"; "warning"; "error"].

(** The computed properties fall off their last [if] for any other
    appearance and yield [undefined]. *)
Definition appearanceClasses (this_appearance : string) : option string :=
  if String.eqb this_appearance "success" then Some "bg-green-50"
  else if String.eqb this_appearance "info" then Some "bg-blue-50"
  else if String.eqb this_appearance "warning" then Some "bg-orange-50"
  else if String.eqb this_appearance "error" then Some "bg-red-50"
  else None.

Definition appearanceIcon (this_appearance : string) : option string :=
  if String.eqb this_appearance "success" then Some "check"
  else if String.eqb this_appearance "info" then Some "info"
  else if String.eqb this_appearance "warning" then Some "alert-circle"
  else if String.eqb this_appearance "error" then Some "x"
  else None.

Definition appearanceIconClasses (this_appearance : string) : option string :=
  if String.eqb this_appearance "success"
  then Some "text-white bg-green-400 p-0.5"
  else if String.eqb this_appearance "info" then Some "text-white bg-blue-400"
  else if String.eqb this_appearance "warning"
  then Some "text-white bg-orange-400"
  else if String.eqb this_appearance "error"
  then Some "text-white bg-red-400 p-0.5"
  else None.

(** [icon || appearanceIcon], the name given to the icon and the
    condition of its [v-if]. *)
Definition icon_name (icon : option string) (this_appearance : string)
    : option string :=
  if Js.truthy icon then icon else appearanceIcon this_appearance.

Definition icon_rendered (icon : option string) (this_appearance : string)
    : bool :=
  Js.truthy (icon_name icon this_appearance).

End ToastAppearance.

(** ** [Toast.vue]: toasts that are armed *)

Module ToastPage.
Import Toast.


End ToastPage.

(** ** Worked inputs *)

Module Samples.
Import Js Async.

(** The api module as the application configures it: one whitelisted
    method on every doctype, and frappe-ui's constructor, which answers
    [undefined] unless the options carry a truthy doctype and a truthy
    name, and otherwise hands out the resource with its first fetch
    still pending. *)
Definition api : DocumentResource.collaborators :=
  {| DocumentResource.getWhitelistedMethods :=
       fun _ => VObj [("run", VStr "run")];
     DocumentResource.createDocumentResource :=
       fun o =>
         if truthy_value (o !! "doctype") && truthy_value (o !! "name")
         then Some {| DocumentResource.loading := true;
                      DocumentResource.in_flight := 1;
                      DocumentResource.remote_calls := 1 |}
         else None |}.

(** Options that bring their own [name] and [whitelistedMethods]. *)
Definition overriding_options : gmap string value :=
  <["name" := VStr "Other"]> (<["whitelistedMethods" := VObj []]> ∅).

(** A server that creates the chart [CHART-001] and answers every
    request of [ChartBlock.vue]. *)
Definition charts : ChartBlock.collaborators :=
  {| ChartBlock.createChart := Fulfilled "CHART-001";
     ChartBlock.useQueries := Fulfilled tt;
     ChartBlock.queries_reload := Fulfilled tt |}.

(** Two dashboards, stored against the alphabet. *)
Definition two_dashboards : ChartBlock.dashboards :=
  {| ChartBlock.dashboards_list :=
       [ {| ChartBlock.name := "DASH-2"; ChartBlock.title := "sales" |};
         {| ChartBlock.name := "DASH-1"; ChartBlock.title := "Marketing" |} ] |}.

(** A server that names every new page [PAGE-001] and every new query
    [QRY-001]. *)
Definition queries : QueryList.collaborators :=
  {| QueryList.createPage := fun _ => Fulfilled "PAGE-001";
     QueryList.queries_create :=
       fun _ => Fulfilled {| QueryList.query_name := "QRY-001" |} |}.

Definition notebooks_list : list QueryList.notebook :=
  [ {| QueryList.name := "NB-1"; QueryList.title := "Research" |};
    {| QueryList.name := "NB-2"; QueryList.title := "Uncategorized" |} ].

(** A server that deletes the notebook and reloads the list, on a page
    whose notebook and notebooks list are lists of names. *)
Definition notebook_server : Notebook.collaborators (list string) (list string) :=
  {| Notebook.deleteNotebook := fun _ => (Fulfilled tt, []);
     Notebook.reload := fun _ => (Fulfilled tt, ["NB-1"]) |}.

Definition notebook_page : Notebook.world (list string) (list string) :=
  {| Notebook.showDeleteDialog := true;
     Notebook.notebook := ["PAGE-1"; "PAGE-2"];
     Notebook.notebooks := ["NB-1"; "NB-2"];
     Notebook.trace := [] |}.

End Samples.

(** * Properties *)

(** ** The api module *)

Module DocumentResourceSpec.
Import Js DocumentResource.

Lemma triggerFetch_while_loading (r : resource) :
  loading (get r) = true -> triggerFetch r = r.
Proof. intros H. unfold triggerFetch. now rewrite H. Qed.

Lemma triggerFetch_when_idle (r : resource) :
  loading (get r) = false ->
  remote_calls (get (triggerFetch r)) = S (remote_calls (get r))
  /\ loading (get (triggerFetch r)) = true.
Proof. intros H. unfold triggerFetch. rewrite H. simpl. auto. Qed.

Lemma consistent_fetch (g : get_operation) :
  consistent g -> loading g = false -> consistent (fetch g).
Proof.
  unfold consistent. intros Hc Hl. rewrite Hl in Hc. simpl. now rewrite Hc.
Qed.

Lemma consistent_settle (g : get_operation) :
  consistent g -> consistent (settle g).
Proof.
  unfold consistent, settle. intros Hc.
  destruct (in_flight g) as [|n] eqn:E; [now rewrite E|].
  simpl. destruct (loading g); simpl in Hc; congruence.
Qed.

Lemma consistent_step (r : resource) (e : event) :
  consistent (get r) -> consistent (get (step r e)).
Proof.
  intros Hc. destruct e; simpl.
  - unfold triggerFetch. destruct (loading (get r)) eqn:E; simpl; auto.
    now apply consistent_fetch.
  - now apply consistent_settle.
Qed.

Lemma consistent_run (evs : list event) (r : resource) :
  consistent (get r) -> consistent (get (run r evs)).
Proof.
  revert r. induction evs as [|e evs IH]; intros r Hc; simpl; auto.
  apply IH. now apply consistent_step.
Qed.

Lemma consistent_at_most_one (g : get_operation) :
  consistent g -> (in_flight g <= 1)%nat.
Proof. unfold consistent. intros ->. destruct (loading g); lia. Qed.

Lemma getDocumentResource_created (c : collaborators) (doctype : string)
    (docname : option string) (opts : option (gmap string value))
    (r : resource) :
  getDocumentResource c doctype docname opts = Async.Resolved r ->
  options r = resource_options c doctype docname opts
  /\ createDocumentResource c (resource_options c doctype docname opts)
     = Some (get r).
Proof.
  unfold getDocumentResource.
  destruct (createDocumentResource c _) as [g|]; [|discriminate].
  intros H. injection H as <-. auto.
Qed.

(** C1, as the code has it. [triggerFetch] reads the [loading] flag and
    nothing else. Called while the flag is set it leaves the resource as
    it is and issues no remote call; called while the flag is clear it
    issues exactly one. As long as the flag tells whether a request is in
    flight and fetches are started through [triggerFetch] only, the flag
    keeps telling so and at most one fetch is in flight. *)
Theorem triggerFetch_guard (r : resource) (evs : list event) :
  (loading (get r) = true ->
     triggerFetch r = r
     /\ remote_calls (get (triggerFetch r)) = remote_calls (get r)
     /\ in_flight (get (triggerFetch r)) = in_flight (get r))
  /\ (loading (get r) = false ->
     remote_calls (get (triggerFetch r)) = S (remote_calls (get r))
     /\ in_flight (get (triggerFetch r)) = S (in_flight (get r))
     /\ loading (get (triggerFetch r)) = true)
  /\ (consistent (get r) ->
     consistent (get (run r evs))
     /\ (in_flight (get (run r evs)) <= 1)%nat).
Proof.
  split; [|split].
  - intros Hl. rewrite (triggerFetch_while_loading r Hl). auto.
  - intros Hl. unfold triggerFetch. rewrite Hl. simpl. auto.
  - intros Hc. pose proof (consistent_run evs r Hc) as Hr.
    split; [exact Hr | now apply consistent_at_most_one].
Qed.

Lemma triggerFetch_guard_witness :
  exists r,
    getDocumentResource Samples.api "Insights Query" None None
    = Async.Resolved r
    /\ triggerFetch r = r
    /\ remote_calls (get (triggerFetch r)) = remote_calls (get r)
    /\ (in_flight
          (get (run r [TriggerFetch; TriggerFetch; Settled; TriggerFetch;
                       TriggerFetch])) <= 1)%nat
    /\ remote_calls
         (get (triggerFetch (run r [Settled])))
       = S (remote_calls (get (run r [Settled]))).
Proof.
  eexists. split; [reflexivity|].
  match goal with
  | |- triggerFetch ?r = _ /\ _ =>
      destruct (triggerFetch_guard r
                  [TriggerFetch; TriggerFetch; Settled; TriggerFetch;
                   TriggerFetch]) as (Hnoop & _ & Hone);
      destruct (triggerFetch_guard (run r [Settled]) []) as (_ & Hidle & _)
  end.
  destruct (Hnoop eq_refl) as (H1 & H2 & _).
  destruct (Hone eq_refl) as [_ H3].
  destruct (Hidle eq_refl) as (H4 & _).
  repeat split; assumption.
Defined.

(** C1, as stated, fails: the resource is handed out with its first
    fetch pending; a fetch started directly on the [get] operation joins
    it, the first settlement clears [loading] while a request is still
    pending, and the [triggerFetch] that follows finds the flag clear and
    starts another: two fetches are in flight. *)
Lemma two_fetches_in_flight :
  exists r,
    getDocumentResource Samples.api "Insights Query" None None
    = Async.Resolved r
    /\ in_flight (get (play r [DirectFetch; RequestSettles])) = 1%nat
    /\ loading (get (play r [DirectFetch; RequestSettles])) = false
    /\ in_flight
         (get (play r [DirectFetch; RequestSettles; ViaTriggerFetch]))
       = 2%nat
    /\ ~ (in_flight
           (get (play r [DirectFetch; RequestSettles; ViaTriggerFetch]))
         <= 1)%nat.
Proof.
  eexists. split; [reflexivity|]. simpl. repeat split. lia.
Qed.

Lemma lookup_spread_supplied (opts : option (gmap string value))
    (base : gmap string value) (key : string) (v : value) :
  supplied opts key = Some v -> spread opts base !! key = Some v.
Proof.
  destruct opts as [m|]; simpl; [|discriminate].
  intros H. now apply lookup_union_Some_l.
Qed.

Lemma lookup_spread_not_supplied (opts : option (gmap string value))
    (base : gmap string value) (key : string) :
  supplied opts key = None -> spread opts base !! key = base !! key.
Proof.
  destruct opts as [m|]; simpl; [|reflexivity].
  intros H. now apply lookup_union_r.
Qed.

Lemma or_else_falsy (a : option string) (b : string) :
  truthy a = false -> or_else a b = b.
Proof. destruct a as [[|c s]|]; simpl; congruence. Qed.

(** C10, as the code has it. The keys of [options] are spread last and
    win. Whenever frappe-ui creates the resource, [getDocumentResource]
    returns it with the options object built from its arguments: when
    [options] brings no [name] and [docname] is omitted or falsy, the
    resource is named after the doctype; when [options] brings no
    [whitelistedMethods], the methods whitelisted for the doctype are
    attached; a key that [options] brings is passed on as it is. *)
Theorem getDocumentResource_defaults (c : collaborators) (doctype : string)
    (docname : option string) (opts : option (gmap string value)) :
  (forall g,
     createDocumentResource c (resource_options c doctype docname opts)
     = Some g ->
     getDocumentResource c doctype docname opts
     = Async.Resolved
         {| options := resource_options c doctype docname opts; get := g |})
  /\ (forall r,
     getDocumentResource c doctype docname opts = Async.Resolved r ->
     (supplied opts "name" = None -> truthy docname = false ->
        options r !! "name" = Some (VStr doctype))
     /\ (supplied opts "whitelistedMethods" = None ->
        options r !! "whitelistedMethods"
        = Some (getWhitelistedMethods c doctype))
     /\ (forall key v, supplied opts key = Some v ->
        options r !! key = Some v)).
Proof.
  split.
  - intros g Hg. unfold getDocumentResource. now rewrite Hg.
  - intros r Hr.
    destruct (getDocumentResource_created _ _ _ _ _ Hr) as [-> _].
    unfold resource_options. repeat split.
    + intros Hs Hf. rewrite (lookup_spread_not_supplied _ _ _ Hs).
      rewrite lookup_insert_ne by discriminate.
      rewrite lookup_insert_eq. now rewrite or_else_falsy.
    + intros Hs. rewrite (lookup_spread_not_supplied _ _ _ Hs).
      now rewrite lookup_insert_eq.
    + intros key v Hs. now apply lookup_spread_supplied.
Qed.

Lemma getDocumentResource_defaults_witness :
  exists r,
    getDocumentResource Samples.api "Insights Query" (Some EmptyString) None
    = Async.Resolved r
    /\ options r !! "name" = Some (VStr "Insights Query")
    /\ options r !! "whitelistedMethods" = Some (VObj [("run", VStr "run")]).
Proof.
  destruct (getDocumentResource_defaults Samples.api "Insights Query"
              (Some EmptyString) None) as [Hcreated Hdefaults].
  eexists. split.
  - apply Hcreated. reflexivity.
  - destruct (Hdefaults _ (Hcreated _ eq_refl)) as (Hname & Hmethods & _).
    split; [apply Hname; reflexivity | apply Hmethods; reflexivity].
Defined.

(** C10, as stated, fails: with [options] that carry a [name] and a
    [whitelistedMethods] of their own and no [docname], the resource is
    created, and it is neither named after the doctype nor given the
    doctype's methods. *)
Lemma getDocumentResource_options_win :
  exists r,
    getDocumentResource Samples.api "Insights Query" None
      (Some Samples.overriding_options)
    = Async.Resolved r
    /\ truthy None = false
    /\ options r !! "name" <> Some (VStr "Insights Query")
    /\ options r !! "whitelistedMethods"
       <> Some (getWhitelistedMethods Samples.api "Insights Query").
Proof.
  eexists. split; [reflexivity|]. simpl.
  unfold resource_options, Samples.overriding_options. simpl.
  split; [reflexivity|]. split.
  - rewrite (lookup_union_Some_l _ _ _ (VStr "Other")).
    + discriminate.
    + now rewrite lookup_insert_eq.
  - rewrite (lookup_union_Some_l _ _ _ (VObj [])).
    + discriminate.
    + rewrite lookup_insert_ne by discriminate. now rewrite lookup_insert_eq.
Qed.

(** Without a doctype frappe-ui creates nothing, and attaching
    [triggerFetch] throws. *)
Example getDocumentResource_without_doctype :
  getDocumentResource Samples.api EmptyString None None
  = Async.Rejected (Async.TypeError "Cannot set properties of undefined").
Proof. reflexivity. Qed.

End DocumentResourceSpec.

(** ** [Array.prototype.sort] *)

Module JsSpec.
Import Js.

Section Sort.
Context {A : Type} (comparefn : A -> A -> Z).

Lemma insert_Permutation (x : A) (l : list A) :
  Permutation (x :: l) (insert comparefn x l).
Proof.
  induction l as [|y l IH]; simpl; [reflexivity|].
  destruct (comparefn x y <? 0)%Z; [reflexivity|].
  rewrite perm_swap. now apply perm_skip.
Qed.

Lemma fold_insert_Permutation (l acc : list A) :
  Permutation (l ++ acc)
    (fold_left (fun sorted x => insert comparefn x sorted) l acc).
Proof.
  revert acc. induction l as [|x l IH]; intros acc; simpl; [reflexivity|].
  rewrite <- IH. rewrite <- insert_Permutation.
  now rewrite Permutation_middle.
Qed.

Lemma sort_Permutation (l : list A) : Permutation l (sort comparefn l).
Proof.
  unfold sort. rewrite <- fold_insert_Permutation. now rewrite app_nil_r.
Qed.

(** The comparator answers truthfully for a transitive order [le]: a
    negative result means [le x y], any other result means [le y x]. *)
Context (le : A -> A -> Prop).
Hypothesis le_trans : forall x y z, le x y -> le y z -> le x z.
Hypothesis negative_le : forall x y, (comparefn x y < 0)%Z -> le x y.
Hypothesis other_ge : forall x y, ~ (comparefn x y < 0)%Z -> le y x.

Lemma insert_StronglySorted (x : A) (l : list A) :
  StronglySorted le l -> StronglySorted le (insert comparefn x l).
Proof.
  induction l as [|y l IH]; simpl; intros Hs.
  - constructor; constructor.
  - apply StronglySorted_inv in Hs as [Hl Hy].
    destruct (Z.ltb_spec (comparefn x y) 0) as [Hlt|Hge].
    + constructor; [constructor; assumption|].
      constructor; [now apply negative_le|].
      eapply Forall_impl; [exact Hy|].
      intros z Hz. simpl in Hz. eapply le_trans; [|exact Hz].
      now apply negative_le.
    + constructor; [now apply IH|].
      rewrite <- insert_Permutation. constructor; [|assumption].
      apply other_ge. lia.
Qed.

Lemma fold_insert_StronglySorted (l acc : list A) :
  StronglySorted le acc ->
  StronglySorted le
    (fold_left (fun sorted x => insert comparefn x sorted) l acc).
Proof.
  revert acc. induction l as [|x l IH]; intros acc Hs; simpl; auto.
  apply IH. now apply insert_StronglySorted.
Qed.

Lemma sort_StronglySorted (l : list A) : StronglySorted le (sort comparefn l).
Proof. apply fold_insert_StronglySorted. constructor. Qed.

End Sort.

Lemma StronglySorted_lookup {A : Type} (R : A -> A -> Prop) (l : list A)
    (i j : nat) (x y : A) :
  StronglySorted R l -> (i < j)%nat ->
  l !! i = Some x -> l !! j = Some y -> R x y.
Proof.
  intros Hs. revert i j. induction Hs as [|a l Hs IH Hall]; intros i j Hij Hi Hj.
  - discriminate.
  - destruct j as [|j]; [lia|]. simpl in Hj.
    destruct i as [|i]; simpl in Hi.
    + injection Hi as <-. rewrite Forall_forall in Hall.
      apply Hall. eapply list_elem_of_lookup_2, Hj.
    + apply (IH i j); [lia|assumption..].
Qed.

Lemma StronglySorted_map {A B : Type} (R : A -> A -> Prop)
    (S : B -> B -> Prop) (f : A -> B) (l : list A) :
  (forall x y, R x y -> S (f x) (f y)) ->
  StronglySorted R l -> StronglySorted S (map f l).
Proof.
  intros HRS Hs. induction Hs as [|a l Hs IH Hall]; simpl; constructor; auto.
  rewrite Forall_forall in Hall. rewrite Forall_forall. intros b Hb.
  apply list_elem_of_fmap in Hb as (x & -> & Hx).
  now apply HRS, Hall.
Qed.

(** The code-unit order on strings is a strict total order. *)
Lemma ltb_asym (s1 s2 : string) :
  String.ltb s1 s2 = true -> String.ltb s2 s1 = false.
Proof.
  unfold String.ltb. rewrite (String.compare_antisym s1 s2).
  destruct (String.compare s2 s1); simpl; congruence.
Qed.

Lemma ltb_lt (s1 s2 : string) :
  String.ltb s1 s2 = true <-> String_as_OT.lt s1 s2.
Proof.
  rewrite <- String_as_OT.cmp_lt. unfold String_as_OT.cmp, String.ltb.
  destruct (String.compare s1 s2); split; congruence.
Qed.

Lemma not_ltb_trans (s1 s2 s3 : string) :
  String.ltb s2 s1 = false -> String.ltb s3 s2 = false ->
  String.ltb s3 s1 = false.
Proof.
  intros H21 H32.
  destruct (String.ltb s3 s1) eqn:H31; [|reflexivity].
  exfalso.
  destruct (String.compare s1 s2) eqn:C.
  - apply String.compare_eq_iff in C. subst. congruence.
  - assert (String.ltb s3 s2 = true); [|congruence].
    apply ltb_lt. eapply String_as_OT.lt_trans; [apply ltb_lt, H31|].
    now apply String_as_OT.cmp_lt.
  - rewrite String.compare_antisym in C. unfold String.ltb in H21.
    destruct (String.compare s2 s1); simpl in C; congruence.
Qed.

Lemma leb_not_ltb (s1 s2 : string) :
  String.leb s1 s2 = true <-> String.ltb s2 s1 = false.
Proof.
  unfold String.leb, String.ltb. rewrite (String.compare_antisym s1 s2).
  destruct (String.compare s2 s1); simpl; split; congruence.
Qed.

End JsSpec.

(** ** [ChartBlock.vue] *)

Module ChartBlockSpec.
Import Async ChartBlock.

Lemma bind_resolved {W A B : Type} (m : async W A) (k : A -> async W B)
    (w w' : W) (a : A) :
  m w = (Resolved a, w') -> bind m k w = k a w'.
Proof. intros H. unfold bind. now rewrite H. Qed.

Lemma setup_after_bind (c : collaborators) (chartName : option string)
    (w : world) :
  bind_chart c chartName start = (Resolved tt, w) ->
  creates (snd (setup c chartName start)) = creates w
  /\ chart (snd (setup c chartName start)) = chart w.
Proof.
  intros Hb. unfold setup. rewrite (bind_resolved _ _ _ _ _ Hb).
  unfold creates.
  destruct c as [cc [[]|uq] [[]|qr]]; simpl;
    rewrite ?List.filter_app, ?length_app; simpl; split; (lia || reflexivity).
Qed.

(** C2, as the code has it. The test is [!props.chartName]. When the prop
    is absent or the empty string and [createChart] returns [id], setup
    makes exactly one create call, emits [setChartName] with [id] and
    binds the chart to [id]; when the prop is a non-empty string, setup
    makes no create call and binds the chart to the prop. *)
Theorem chart_binding (c : collaborators) (chartName : option string) :
  (Js.truthy chartName = false -> forall id, createChart c = Fulfilled id ->
     bind_chart c chartName start
     = (Resolved tt,
        {| trace := [CreateChart; Emit "setChartName" id; UseChart id;
                     EnableAutoSave id; Provide "chart" id];
           chart := Some {| chart_name := id |} |})
     /\ creates (snd (setup c chartName start)) = 1
     /\ chart (snd (setup c chartName start)) = Some {| chart_name := id |})
  /\ (Js.truthy chartName = true -> forall s, chartName = Some s ->
     bind_chart c chartName start
     = (Resolved tt,
        {| trace := [UseChart s; EnableAutoSave s; Provide "chart" s];
           chart := Some {| chart_name := s |} |})
     /\ creates (snd (setup c chartName start)) = 0
     /\ chart (snd (setup c chartName start)) = Some {| chart_name := s |}).
Proof.
  split.
  - intros Hf id Hid.
    assert (Hb : bind_chart c chartName start
                 = (Resolved tt,
                    {| trace := [CreateChart; Emit "setChartName" id;
                                 UseChart id; EnableAutoSave id;
                                 Provide "chart" id];
                       chart := Some {| chart_name := id |} |})).
    { destruct chartName as [[|ch s]|]; try discriminate;
        unfold bind_chart, bind; simpl; rewrite Hid; reflexivity. }
    split; [exact Hb|].
    destruct (setup_after_bind c chartName _ Hb) as [-> ->]. auto.
  - intros Ht s ->.
    assert (Hb : bind_chart c (Some s) start
                 = (Resolved tt,
                    {| trace := [UseChart s; EnableAutoSave s;
                                 Provide "chart" s];
                       chart := Some {| chart_name := s |} |})).
    { destruct s as [|ch s]; [discriminate|]. reflexivity. }
    split; [exact Hb|].
    destruct (setup_after_bind c (Some s) _ Hb) as [-> ->]. auto.
Qed.

Lemma chart_binding_witness :
  (creates (snd (setup Samples.charts None start)) = 1
   /\ chart (snd (setup Samples.charts None start))
      = Some {| chart_name := "CHART-001" |})
  /\ (creates (snd (setup Samples.charts (Some "CHART-007") start)) = 0
     /\ chart (snd (setup Samples.charts (Some "CHART-007") start))
        = Some {| chart_name := "CHART-007" |}).
Proof.
  split.
  - apply (proj1 (chart_binding Samples.charts None) eq_refl "CHART-001" eq_refl).
  - apply (proj2 (chart_binding Samples.charts (Some "CHART-007")) eq_refl
             "CHART-007" eq_refl).
Defined.

(** C2, as stated, fails: a [chartName] prop that is supplied as the
    empty string is falsy, so setup makes a create call and binds the
    chart to the new identifier, not to the prop. *)
Lemma empty_chartName_creates :
  let w := snd (setup Samples.charts (Some EmptyString) start) in
  creates w = 1
  /\ creates w <> 0
  /\ chart w = Some {| chart_name := "CHART-001" |}
  /\ chart w <> Some {| chart_name := EmptyString |}.
Proof. simpl. repeat split; discriminate. Qed.

Section DashboardOptions.
Variable toLowerCase : string -> string.

Lemma by_title_negative (a b : dashboard) :
  (by_title toLowerCase a b < 0)%Z -> title_le toLowerCase a b.
Proof.
  unfold by_title, title_le. intros H. apply JsSpec.leb_not_ltb.
  destruct (String.ltb _ _) eqn:E in H; [|lia].
  now apply JsSpec.ltb_asym.
Qed.

Lemma by_title_other (a b : dashboard) :
  ~ (by_title toLowerCase a b < 0)%Z -> title_le toLowerCase b a.
Proof.
  unfold by_title, title_le. intros H. apply JsSpec.leb_not_ltb.
  destruct (String.ltb _ _); [lia|reflexivity].
Qed.

Lemma title_le_trans (a b c : dashboard) :
  title_le toLowerCase a b -> title_le toLowerCase b c ->
  title_le toLowerCase a c.
Proof.
  unfold title_le. rewrite !JsSpec.leb_not_ltb. apply JsSpec.not_ltb_trans.
Qed.

Lemma sort_by_title_sorted (l : list dashboard) :
  StronglySorted (title_le toLowerCase) (Js.sort (by_title toLowerCase) l).
Proof.
  apply JsSpec.sort_StronglySorted.
  - apply title_le_trans.
  - apply by_title_negative.
  - apply by_title_other.
Qed.

(** C7. The options hold one entry [{label: title, value: name}] per
    dashboard, no more and no fewer: they are a rearrangement of the
    dashboards, each turned into the entry that has its title as label
    and its name as value. Every entry stands before the entries whose
    lowercased label is at least its own. *)
Theorem dashboardOptions_sorted (store : dashboards) :
  let opts := fst (dashboardOptions toLowerCase store) in
  Permutation
    (map (fun d => {| label := title d; value := name d |})
       (dashboards_list store))
    opts
  /\ length opts = length (dashboards_list store)
  /\ (forall o, In o opts <->
      exists d, In d (dashboards_list store)
                /\ label o = title d /\ value o = name d)
  /\ StronglySorted (label_le toLowerCase) opts.
Proof.
  simpl.
  assert (Hperm : Permutation
            (map (fun d => {| label := title d; value := name d |})
               (dashboards_list store))
            (map to_option
               (Js.sort (by_title toLowerCase) (dashboards_list store)))).
  { apply (Permutation_map to_option), JsSpec.sort_Permutation. }
  split; [exact Hperm|]. split; [|split].
  - rewrite length_map.
    symmetry. apply Permutation_length, JsSpec.sort_Permutation.
  - intros o. split.
    + intros Hin. apply (Permutation_in _ (Permutation_sym Hperm)) in Hin.
      apply in_map_iff in Hin as (d & <- & Hd). exists d. auto.
    + intros (d & Hd & Hl & Hv). apply (Permutation_in _ Hperm).
      apply in_map_iff. exists d. split; [|exact Hd].
      destruct o. simpl in *. congruence.
  - apply (JsSpec.StronglySorted_map (title_le toLowerCase));
      [auto | apply sort_by_title_sorted].
Qed.

(** C9. Evaluating the options is an update of the shared store: the
    list it leaves behind is the sorted array, a rearrangement of the
    list it found, and the options are read off that array; whenever the
    list held a dashboard behind one with a greater lowercased title, the
    evaluation has changed it. *)
Theorem dashboardOptions_sorts_in_place (store : dashboards) (i j : nat)
    (x y : dashboard) :
  let after := snd (dashboardOptions toLowerCase store) in
  dashboards_list after
  = Js.sort (by_title toLowerCase) (dashboards_list store)
  /\ Permutation (dashboards_list store) (dashboards_list after)
  /\ fst (dashboardOptions toLowerCase store)
     = map to_option (dashboards_list after)
  /\ ((i < j)%nat ->
      dashboards_list store !! i = Some x ->
      dashboards_list store !! j = Some y ->
      String.ltb (toLowerCase (title y)) (toLowerCase (title x)) = true ->
      dashboards_list after <> dashboards_list store).
Proof.
  simpl. repeat split.
  - apply JsSpec.sort_Permutation.
  - intros Hij Hi Hj Hlt Heq.
    pose proof (sort_by_title_sorted (dashboards_list store)) as Hs.
    rewrite Heq in Hs.
    pose proof (JsSpec.StronglySorted_lookup _ _ _ _ _ _ Hs Hij Hi Hj) as Hle.
    unfold title_le in Hle. apply JsSpec.leb_not_ltb in Hle. congruence.
Qed.

End DashboardOptions.

Lemma dashboardOptions_sorts_in_place_witness :
  dashboards_list (snd (dashboardOptions Js.toLowerCase Samples.two_dashboards))
  <> dashboards_list Samples.two_dashboards.
Proof.
  refine (proj2 (proj2 (proj2
    (dashboardOptions_sorts_in_place Js.toLowerCase Samples.two_dashboards
       0 1 {| name := "DASH-2"; title := "sales" |}
       {| name := "DASH-1"; title := "Marketing" |}))) _ _ _ _).
  - lia.
  - reflexivity.
  - reflexivity.
  - reflexivity.
Defined.

Example dashboardOptions_two_dashboards :
  dashboardOptions Js.toLowerCase Samples.two_dashboards
  = ([ {| label := "Marketing"; value := "DASH-1" |};
       {| label := "sales"; value := "DASH-2" |} ],
     {| dashboards_list :=
          [ {| name := "DASH-1"; title := "Marketing" |};
            {| name := "DASH-2"; title := "sales" |} ] |}).
Proof. reflexivity. Qed.

End ChartBlockSpec.

(** ** The query list page *)

Module QueryListSpec.
Import Async QueryList.

Lemma find_uncategorized_Some (l : list notebook) (nb : notebook) :
  find_uncategorized l = Some nb -> In nb l /\ title nb = "Uncategorized".
Proof.
  unfold find_uncategorized. intros H. apply find_some in H as [Hin Ht].
  split; [assumption|]. now apply String.eqb_eq.
Qed.

Lemma find_uncategorized_None (l : list notebook) :
  find_uncategorized l = None <->
  forall nb, In nb l -> title nb <> "Uncategorized".
Proof.
  unfold find_uncategorized. split.
  - intros H nb Hin Ht.
    pose proof (find_none _ _ H nb Hin) as Hf. simpl in Hf.
    rewrite Ht in Hf. discriminate.
  - intros H. destruct (List.find _ l) as [nb|] eqn:E; [|reflexivity].
    apply find_some in E as [Hin Ht]. apply String.eqb_eq in Ht.
    now destruct (H nb Hin).
Qed.

Lemma openQueryEditor_found (c : collaborators) (l : list notebook)
    (nb : notebook) :
  find_uncategorized l = Some nb ->
  openQueryEditor c l "notebook" []
  = match createPage c (name nb) with
    | Fulfilled page =>
        (Resolved tt,
         [CreatePage (name nb);
          RouterPush "NotebookPage" [("notebook", name nb); ("page", page)]])
    | Failed payload => (Rejected (Rejection payload), [CreatePage (name nb)])
    end.
Proof.
  intros H. unfold openQueryEditor. simpl. rewrite H.
  unfold bind. simpl. destruct (createPage c (name nb)); reflexivity.
Qed.

Lemma openQueryEditor_missing (c : collaborators) (l : list notebook) :
  find_uncategorized l = None ->
  openQueryEditor c l "notebook" []
  = (Rejected (TypeError "Cannot read properties of undefined"), []).
Proof. intros H. unfold openQueryEditor. simpl. now rewrite H. Qed.

(** C6. [openQueryEditor('notebook')] reads [name] off the result of the
    lookup without a guard. When the list holds a notebook titled
    [Uncategorized], the lookup yields such a notebook, a page is created
    in it and the router is sent to that page; the read is safe exactly
    when the list holds such a notebook, and without one the call is
    rejected with a [TypeError] before any page is created or any
    navigation made. *)
Theorem openQueryEditor_notebook (c : collaborators) (l : list notebook) :
  ((exists nb, In nb l /\ title nb = "Uncategorized") ->
   exists nb, In nb l /\ title nb = "Uncategorized"
     /\ find_uncategorized l = Some nb
     /\ forall page, createPage c (name nb) = Fulfilled page ->
          openQueryEditor c l "notebook" []
          = (Resolved tt,
             [CreatePage (name nb);
              RouterPush "NotebookPage"
                [("notebook", name nb); ("page", page)]]))
  /\ ((exists nb, In nb l /\ title nb = "Uncategorized") <->
      forall msg,
        fst (openQueryEditor c l "notebook" []) <> Rejected (TypeError msg))
  /\ ((forall nb, In nb l -> title nb <> "Uncategorized") ->
      openQueryEditor c l "notebook" []
      = (Rejected (TypeError "Cannot read properties of undefined"), [])).
Proof.
  repeat split.
  - intros (nb0 & Hin0 & Ht0).
    destruct (find_uncategorized l) as [nb|] eqn:E.
    + destruct (find_uncategorized_Some l nb E) as [Hin Ht].
      exists nb. repeat split; auto.
      intros page Hp. rewrite (openQueryEditor_found c l nb E). now rewrite Hp.
    + destruct (proj1 (find_uncategorized_None l) E nb0 Hin0 Ht0).
  - intros (nb0 & Hin0 & Ht0) msg.
    destruct (find_uncategorized l) as [nb|] eqn:E.
    + rewrite (openQueryEditor_found c l nb E).
      destruct (createPage c (name nb)); discriminate.
    + destruct (proj1 (find_uncategorized_None l) E nb0 Hin0 Ht0).
  - intros Hsafe.
    destruct (find_uncategorized l) as [nb|] eqn:E.
    + exists nb. now apply find_uncategorized_Some.
    + rewrite (openQueryEditor_missing c l E) in Hsafe.
      now destruct (Hsafe "Cannot read properties of undefined").
  - intros Hnone. apply openQueryEditor_missing.
    now apply find_uncategorized_None.
Qed.

Lemma openQueryEditor_notebook_witness :
  openQueryEditor Samples.queries Samples.notebooks_list "notebook" []
  = (Resolved tt,
     [CreatePage "NB-2";
      RouterPush "NotebookPage" [("notebook", "NB-2"); ("page", "PAGE-001")]])
  /\ openQueryEditor Samples.queries [] "notebook" []
     = (Rejected (TypeError "Cannot read properties of undefined"), []).
Proof.
  destruct (openQueryEditor_notebook Samples.queries Samples.notebooks_list)
    as (Hfound & _ & _).
  destruct (openQueryEditor_notebook Samples.queries []) as (_ & _ & Hnone).
  split.
  - destruct Hfound as (nb & _ & _ & Hf & Hrun).
    + exists {| name := "NB-2"; title := "Uncategorized" |}.
      split; [simpl; auto | reflexivity].
    + injection Hf as <-. apply Hrun. reflexivity.
  - apply Hnone. intros nb [].
Defined.

End QueryListSpec.

(** ** [Notebook.vue] *)

Module NotebookSpec.
Import Async Notebook.

(** C3. Confirming calls [deleteNotebook] on the bound notebook and waits
    for it, then closes the dialog, then reloads the notebooks list and
    waits for it, then sends the router to the notebook list, in this
    order; if the deletion is rejected nothing of the rest happens, and
    if the reload is rejected the router is not called.
    Cancelling closes the dialog and does nothing else: no remote call is
    made and the notebook resource and the notebooks list stay as they
    were. *)
Theorem delete_dialog {R L : Type} (c : collaborators R L) (w : world R L) :
  (forall r l,
     deleteNotebook c (notebook w) = (Fulfilled tt, r) ->
     reload c (notebooks w) = (Fulfilled tt, l) ->
     handleDelete c w
     = (Resolved tt,
        {| showDeleteDialog := false; notebook := r; notebooks := l;
           trace := trace w ++ [DeleteNotebook; SetShowDeleteDialog false;
                                ReloadNotebooks; RouterPush "NotebookList"] |}))
  /\ (forall payload r,
     deleteNotebook c (notebook w) = (Failed payload, r) ->
     handleDelete c w
     = (Rejected (Rejection payload),
        {| showDeleteDialog := showDeleteDialog w; notebook := r;
           notebooks := notebooks w; trace := trace w ++ [DeleteNotebook] |}))
  /\ (forall payload r l,
     deleteNotebook c (notebook w) = (Fulfilled tt, r) ->
     reload c (notebooks w) = (Failed payload, l) ->
     handleDelete c w
     = (Rejected (Rejection payload),
        {| showDeleteDialog := false; notebook := r; notebooks := l;
           trace := trace w ++ [DeleteNotebook; SetShowDeleteDialog false;
                                ReloadNotebooks] |}))
  /\ cancel w
     = (Resolved tt,
        {| showDeleteDialog := false; notebook := notebook w;
           notebooks := notebooks w;
           trace := trace w ++ [SetShowDeleteDialog false] |})
  /\ List.filter is_remote_call (trace (snd (cancel w)))
     = List.filter is_remote_call (trace w).
Proof.
  repeat split.
  - intros r l Hd Hr. unfold handleDelete, call_deleteNotebook, call_reload.
    unfold bind. simpl. rewrite Hd. simpl. rewrite Hr. simpl.
    unfold log, modify. simpl. now rewrite <- !app_assoc.
  - intros payload r Hd. unfold handleDelete, call_deleteNotebook.
    unfold bind. simpl. now rewrite Hd.
  - intros payload r l Hd Hr.
    unfold handleDelete, call_deleteNotebook, call_reload.
    unfold bind. simpl. rewrite Hd. simpl. rewrite Hr. simpl.
    now rewrite <- !app_assoc.
  - simpl. rewrite List.filter_app. simpl. now rewrite app_nil_r.
Qed.

Lemma delete_dialog_witness :
  handleDelete Samples.notebook_server Samples.notebook_page
  = (Resolved tt,
     {| showDeleteDialog := false; notebook := []; notebooks := ["NB-1"];
        trace := [DeleteNotebook; SetShowDeleteDialog false; ReloadNotebooks;
                  RouterPush "NotebookList"] |}).
Proof.
  apply (proj1 (delete_dialog Samples.notebook_server Samples.notebook_page));
    reflexivity.
Defined.

End NotebookSpec.

(** ** [NewDialogWithTypes.vue] *)

Module NewDialogWithTypesSpec.
Import NewDialogWithTypes.

(** C8. A click on the entry at [index] calls the handler of that entry,
    once and with no argument, calls no other handler and emits nothing:
    no [update:show] leaves the component, so the [show] model is as the
    caller's handler leaves it. *)
Theorem click_invokes_handler {P : Type} (p : props P) (index : nat)
    (type : type_option P) (w : world P) :
  types p !! index = Some type ->
  calls (click p index w) = calls w ++ [(index, [])]
  /\ caller (click p index w) = handler type [] (caller w)
  /\ emits (click p index w) = emits w.
Proof. intros H. unfold click. rewrite H. simpl. auto. Qed.

Lemma click_invokes_handler_witness :
  let page := {| QueryList.new_dialog := true; QueryList.effects := [] |} in
  let p := QueryList.dialog_props Samples.queries Samples.notebooks_list page in
  let w := {| emits := []; calls := []; caller := page |} in
  calls (click p 1 w) = [(1%nat, [])]
  /\ caller (click p 1 w)
     = QueryList.open_editor Samples.queries Samples.notebooks_list "visual"
         [] page
  /\ emits (click p 1 w) = [].
Proof.
  intros page p w.
  apply (click_invokes_handler p 1
           {| label := "Visual";
              description := "Create a query using the visual interface";
              icon := "box"; tag := Some "beta";
              handler := QueryList.open_editor Samples.queries
                           Samples.notebooks_list "visual" |} w).
  reflexivity.
Defined.

(** On the query list page the handlers leave [new_dialog] alone, so the
    dialog is still shown after a choice. *)
Lemma query_list_dialog_stays_open (c : QueryList.collaborators)
    (l : list QueryList.notebook) (page : QueryList.page) (index : nat)
    (w : world QueryList.page) :
  caller w = page ->
  show (QueryList.dialog_props c l (caller (click
          (QueryList.dialog_props c l page) index w)))
  = show (QueryList.dialog_props c l page).
Proof.
  intros <-. unfold click. simpl.
  destruct index as [|[|[|index]]]; reflexivity.
Qed.

End NewDialogWithTypesSpec.

(** ** [Toast.vue] *)

Module ToastSpec.
Import Toast.

Lemma count_roots_app (d1 d2 : list element) :
  count_roots (d1 ++ d2) = (count_roots d1 + count_roots d2)%nat.
Proof. unfold count_roots. now rewrite List.filter_app, length_app. Qed.

Lemma getElementById_None (d : list element) :
  getElementById d root_id = None <-> count_roots d = 0%nat.
Proof.
  unfold getElementById, count_roots, is_root.
  induction d as [|e d IH]; simpl; [tauto|].
  destruct (String.eqb (id e) root_id); simpl; [|exact IH].
  split; discriminate.
Qed.

Lemma created_absent (d : list element) :
  getElementById d root_id = None -> created d = d ++ [root].
Proof. intros H. unfold created. now rewrite H. Qed.

Lemma created_present (d : list element) :
  getElementById d root_id <> None -> created d = d.
Proof.
  intros H. unfold created. destruct (getElementById d root_id); congruence.
Qed.

Lemma created_count (d : list element) :
  (count_roots d <= 1)%nat -> count_roots (created d) = 1%nat.
Proof.
  intros Hle. destruct (getElementById d root_id) as [e|] eqn:E.
  - rewrite created_present by congruence.
    assert (count_roots d <> 0%nat); [|lia].
    intros H0. apply getElementById_None in H0. congruence.
  - rewrite (created_absent d E), count_roots_app.
    apply getElementById_None in E. rewrite E. reflexivity.
Qed.

Lemma created_fixed (d : list element) :
  count_roots d = 1%nat -> created d = d.
Proof.
  intros H1. apply created_present. intros E.
  apply getElementById_None in E. lia.
Qed.

Lemma created_extends (d : list element) :
  exists added, created d = d ++ added.
Proof.
  unfold created. destruct (getElementById d root_id).
  - exists []. now rewrite app_nil_r.
  - now exists [root].
Qed.

Lemma step_document (p : page) (a : action) :
  document (step p a)
  = if is_new a then created (document p) else document p.
Proof. destruct a; reflexivity. Qed.

Lemma run_cons (a : action) (actions : list action) (p : page) :
  run p (a :: actions) = run (step p a) actions.
Proof. reflexivity. Qed.

Lemma run_rooted (actions : list action) (p : page) :
  count_roots (document p) = 1%nat ->
  document (run p actions) = document p.
Proof.
  revert p. induction actions as [|a actions IH]; intros p H1; [reflexivity|].
  assert (Hd : document (step p a) = document p).
  { rewrite step_document. destruct (is_new a); auto using created_fixed. }
  rewrite run_cons, IH; rewrite Hd; auto.
Qed.

Lemma run_count (actions : list action) (p : page) :
  (count_roots (document p) <= 1)%nat ->
  (count_roots (document (run p actions)) <= 1)%nat
  /\ (existsb is_new actions = true ->
      count_roots (document (run p actions)) = 1%nat).
Proof.
  revert p. induction actions as [|a actions IH]; intros p Hle.
  - split; [assumption|discriminate].
  - rewrite run_cons. pose proof (step_document p a) as Hd.
    simpl existsb. destruct (is_new a) eqn:Ea; simpl orb.
    + assert (H1 : count_roots (document (step p a)) = 1%nat)
        by (rewrite Hd; now apply created_count).
      rewrite (run_rooted actions (step p a) H1), H1.
      split; [lia|reflexivity].
    + apply IH. now rewrite Hd.
Qed.

Lemma run_extends (actions : list action) (p : page) :
  exists added, document (run p actions) = document p ++ added.
Proof.
  revert p. induction actions as [|a actions IH]; intros p.
  - exists []. simpl. now rewrite app_nil_r.
  - destruct (IH (step p a)) as [added2 H2]. rewrite run_cons, H2.
    rewrite step_document. destruct (is_new a).
    + destruct (created_extends (document p)) as [added1 ->].
      exists (added1 ++ added2). now rewrite app_assoc.
    + now exists added2.
Qed.

(** C5. The [created] hook appends the root exactly when no element with
    its id exists. On a page that starts with at most one such element,
    whatever the toasts do, there is never more than one root, there is
    exactly one as soon as one toast has been instantiated, and no
    element of the document is ever removed: the document only grows at
    its end. *)
Theorem toast_root_singleton (p : page) (actions : list action) :
  (count_roots (document p) <= 1)%nat ->
  (forall d, getElementById d root_id = None -> created d = d ++ [root])
  /\ (forall d, getElementById d root_id <> None -> created d = d)
  /\ (count_roots (document (run p actions)) <= 1)%nat
  /\ (existsb is_new actions = true ->
      count_roots (document (run p actions)) = 1%nat)
  /\ (exists added, document (run p actions) = document p ++ added).
Proof.
  intros Hle. destruct (run_count actions p Hle) as [H1 H2].
  repeat split; auto using created_absent, created_present, run_extends.
Qed.

Lemma toast_root_singleton_witness :
  let p := {| document := []; now := 0; toasts := [] |} in
  let actions := [New 5; Mount 0; New 3; Mount 1; Dismiss 0; Elapse 6000;
                  New 5] in
  count_roots (document (run p actions)) = 1%nat
  /\ document (run p actions) = [root].
Proof.
  intros p actions.
  destruct (toast_root_singleton p actions) as (_ & _ & _ & H1 & _).
  - unfold p, count_roots. simpl. lia.
  - split; [apply H1; reflexivity | reflexivity].
Defined.









End ToastSpec.

(** * Further properties of the code *)

(** ** The api module, continued *)

Module DocumentResourceMore.
Import Js DocumentResource.

(** X1. Calling [triggerFetch] twice in a row does what calling it once
    does, whatever the state of the resource, and a call always leaves
    the resource loading. *)
Theorem triggerFetch_idempotent (r : resource) :
  triggerFetch (triggerFetch r) = triggerFetch r
  /\ loading (get (triggerFetch r)) = true.
Proof.
  unfold triggerFetch. destruct (loading (get r)) eqn:E; simpl.
  - rewrite E. simpl. auto.
  - auto.
Qed.

Lemma step_calls (r : resource) (e : event) :
  (remote_calls (get (step r e))
   + (if loading (get (step r e)) then 0 else 1)
   <= remote_calls (get r) + (if loading (get r) then 0 else 1)
      + (match e with Settled => 1 | TriggerFetch => 0 end))%nat
  /\ options (step r e) = options r.
Proof.
  destruct e; simpl.
  - unfold triggerFetch. destruct (loading (get r)) eqn:E; simpl.
    + rewrite E. split; [lia|reflexivity].
    + split; [lia|reflexivity].
  - unfold settle. destruct (in_flight (get r)); simpl;
      destruct (loading (get r)); split; (lia || reflexivity).
Qed.

Lemma run_calls (evs : list event) (r : resource) :
  (remote_calls (get (run r evs))
   + (if loading (get (run r evs)) then 0 else 1)
   <= remote_calls (get r) + (if loading (get r) then 0 else 1)
      + length (List.filter
                  (fun e => match e with Settled => true | _ => false end)
                  evs))%nat
  /\ options (run r evs) = options r.
Proof.
  revert r. induction evs as [|e evs IH]; intros r.
  - simpl. split; [lia|reflexivity].
  - change (run r (e :: evs)) with (run (step r e) evs).
    destruct (IH (step r e)) as [Hc Ho].
    destruct (step_calls r e) as [Hs Hso].
    split; [|congruence].
    destruct e; simpl in *; lia.
Qed.

(** X2. However often [triggerFetch] is called, the remote calls made
    over a run exceed the settlements of the run by at most one, and the
    options the resource was created with are never touched. *)
Theorem fetches_bounded_by_settlements (r : resource) (evs : list event) :
  (remote_calls (get (run r evs))
   <= remote_calls (get r) + 1
      + length (List.filter
                  (fun e => match e with Settled => true | _ => false end)
                  evs))%nat
  /\ options (run r evs) = options r.
Proof.
  destruct (run_calls evs r) as [Hc Ho]. split; [|exact Ho].
  destruct (loading (get r)); lia.
Qed.

(** X3. The options object handed to frappe-ui always has the three keys
    [doctype], [name] and [whitelistedMethods]; unless [options] brings
    its own, [doctype] is the doctype and a truthy [docname] is the name;
    every other key is exactly what [options] gives it, nothing is added
    and nothing is dropped. *)
Theorem resource_options_keys (c : collaborators) (doctype : string)
    (docname : option string) (opts : option (gmap string value)) :
  let o := resource_options c doctype docname opts in
  (is_Some (o !! "doctype") /\ is_Some (o !! "name")
   /\ is_Some (o !! "whitelistedMethods"))
  /\ (supplied opts "doctype" = None -> o !! "doctype" = Some (VStr doctype))
  /\ (forall s, supplied opts "name" = None -> docname = Some s ->
      truthy docname = true -> o !! "name" = Some (VStr s))
  /\ (forall key, key <> "doctype" -> key <> "name" ->
      key <> "whitelistedMethods" -> o !! key = supplied opts key).
Proof.
  simpl. unfold resource_options.
  assert (Hkey : forall key v,
            (<["whitelistedMethods" := getWhitelistedMethods c doctype]>
               (<["name" := VStr (or_else docname doctype)]>
                  (<["doctype" := VStr doctype]> (∅ : gmap string value))))
              !! key = Some v ->
            is_Some (spread opts
              (<["whitelistedMethods" := getWhitelistedMethods c doctype]>
                 (<["name" := VStr (or_else docname doctype)]>
                    (<["doctype" := VStr doctype]> ∅))) !! key)).
  { intros key v Hv. destruct (supplied opts key) as [u|] eqn:E.
    - rewrite (DocumentResourceSpec.lookup_spread_supplied _ _ _ _ E). eauto.
    - rewrite (DocumentResourceSpec.lookup_spread_not_supplied _ _ _ E). eauto. }
  repeat split.
  - eapply Hkey. rewrite !lookup_insert_ne by discriminate.
    apply lookup_insert_eq.
  - eapply Hkey. rewrite lookup_insert_ne by discriminate.
    apply lookup_insert_eq.
  - eapply Hkey. apply lookup_insert_eq.
  - intros Hs. rewrite (DocumentResourceSpec.lookup_spread_not_supplied _ _ _ Hs).
    rewrite !lookup_insert_ne by discriminate. apply lookup_insert_eq.
  - intros s Hs -> Ht.
    rewrite (DocumentResourceSpec.lookup_spread_not_supplied _ _ _ Hs).
    rewrite lookup_insert_ne by discriminate. rewrite lookup_insert_eq.
    simpl. simpl in Ht. now rewrite Ht.
  - intros key H1 H2 H3. destruct opts as [m|]; simpl.
    + destruct (m !! key) as [v|] eqn:E.
      * now apply lookup_union_Some_l.
      * rewrite lookup_union_r by assumption.
        rewrite !lookup_insert_ne by congruence. apply lookup_empty.
    + rewrite !lookup_insert_ne by congruence. apply lookup_empty.
Qed.

Lemma resource_options_keys_witness :
  let o := resource_options Samples.api "Insights Query" (Some "QRY-001")
             (Some (<["auto" := VBool true]> ∅)) in
  o !! "doctype" = Some (VStr "Insights Query")
  /\ o !! "name" = Some (VStr "QRY-001")
  /\ o !! "auto" = Some (VBool true)
  /\ o !! "debounce" = None.
Proof.
  intros o.
  destruct (resource_options_keys Samples.api "Insights Query"
              (Some "QRY-001") (Some (<["auto" := VBool true]> ∅)))
    as (_ & Hd & Hn & Hother).
  split; [apply Hd; reflexivity|].
  split; [apply (Hn "QRY-001"); reflexivity|].
  split; [rewrite Hother by discriminate; reflexivity|].
  rewrite Hother by discriminate. reflexivity.
Defined.

End DocumentResourceMore.

(** ** [ChartBlock.vue], continued *)

Module ChartBlockActionsSpec.
Import Async ChartBlockActions.

Lemma find_queryOptions (q : string) (l : list query) :
  List.find (fun op => String.eqb (value op) q) (queryOptions l)
  = option_map
      (fun x => {| label := title x; value := name x; description := name x |})
      (List.find (fun x => String.eqb (name x) q) l).
Proof.
  induction l as [|x l IH]; simpl; [reflexivity|].
  destruct (String.eqb (name x) q); [reflexivity|exact IH].
Qed.

(** X5. The selected query is the option of the first query whose name
    is the chart's query: it carries that name as value and its title as
    label. There is none exactly when no query of the list has that name,
    and there is none for a chart without a query. *)
Theorem selectedQuery_spec (l : list query) (q : string) :
  (selectedQuery l (Some q) = None <-> forall x, In x l -> name x <> q)
  /\ (forall op, selectedQuery l (Some q) = Some op ->
      value op = q /\ description op = q
      /\ exists x, List.find (fun x => String.eqb (name x) q) l = Some x
                   /\ In x l /\ label op = title x)
  /\ selectedQuery l None = None.
Proof.
  unfold selectedQuery. rewrite find_queryOptions. repeat split.
  - intros H x Hin Hx.
    destruct (List.find (fun x => String.eqb (name x) q) l) eqn:E;
      [discriminate|].
    pose proof (find_none _ _ E x Hin) as Hf. simpl in Hf.
    rewrite Hx, String.eqb_refl in Hf. discriminate.
  - intros H.
    destruct (List.find (fun x => String.eqb (name x) q) l) as [x|] eqn:E;
      [|reflexivity].
    apply find_some in E as [Hin Hx]. apply String.eqb_eq in Hx.
    now destruct (H x Hin).
  - destruct (List.find (fun x => String.eqb (name x) q) l) as [x|] eqn:E;
      [|discriminate].
    simpl in H. injection H as <-. simpl.
    apply find_some in E as [_ Hx]. now apply String.eqb_eq.
  - destruct (List.find (fun x => String.eqb (name x) q) l) as [x|] eqn:E;
      [|discriminate].
    simpl in H. injection H as <-. simpl.
    apply find_some in E as [_ Hx]. now apply String.eqb_eq.
  - destruct (List.find (fun x => String.eqb (name x) q) l) as [x|] eqn:E;
      [|discriminate].
    simpl in H. injection H as <-. simpl.
    exists x. split; [reflexivity|]. apply find_some in E as [Hin _]. auto.
  - induction l as [|x l IH]; simpl; auto.
Qed.

Lemma selectedQuery_spec_witness :
  let l := [ {| name := "QRY-1"; title := "Revenue" |};
             {| name := "QRY-2"; title := "Churn" |} ] in
  selectedQuery l (Some "QRY-3") = None
  /\ (forall op, selectedQuery l (Some "QRY-2") = Some op -> value op = "QRY-2").
Proof.
  intros l. split.
  - apply (proj1 (selectedQuery_spec l "QRY-3")).
    intros x [<-|[<-|[]]]; discriminate.
  - intros op Hop.
    apply (proj1 (proj2 (selectedQuery_spec l "QRY-2")) op Hop).
Defined.

(** X6. The [Add] button. With no dashboard selected it does nothing at
    all. With one selected it asks once for the chart to be added to that
    dashboard; only when that succeeds does it close the dialog and send
    the success notification, and when it fails the dialog is left as it
    was and nothing is notified. In every case the selection and the
    [addingToDashboard] flag are left as they were. *)
Theorem addToDashboard_spec (c : collaborators) (w : world) :
  (toDashboard w = None -> addToDashboard c w = (Resolved tt, w))
  /\ (forall selected, toDashboard w = Some selected ->
      (chart_addToDashboard c (ChartBlock.value selected) = Fulfilled tt ->
       addToDashboard c w
       = (Resolved tt,
          {| toDashboard := toDashboard w;
             showDashboardDialog := false;
             addingToDashboard := addingToDashboard w;
             trace := trace w
                      ++ [AddToDashboard (ChartBlock.value selected);
                          Notify "success" "Success"
                            "Chart added to dashboard"] |}))
      /\ (forall payload,
          chart_addToDashboard c (ChartBlock.value selected) = Failed payload ->
          addToDashboard c w
          = (Rejected (Rejection payload),
             {| toDashboard := toDashboard w;
                showDashboardDialog := showDashboardDialog w;
                addingToDashboard := addingToDashboard w;
                trace := trace w
                         ++ [AddToDashboard (ChartBlock.value selected)] |})))
  /\ toDashboard (snd (addToDashboard c w)) = toDashboard w
  /\ addingToDashboard (snd (addToDashboard c w)) = addingToDashboard w.
Proof.
  unfold addToDashboard.
  destruct (toDashboard w) as [selected|] eqn:E.
  - split; [discriminate|].
    assert (Hcases :
      forall s, chart_addToDashboard c (ChartBlock.value selected) = s ->
      bind (log (AddToDashboard (ChartBlock.value selected)))
        (fun _ => bind (await (chart_addToDashboard c (ChartBlock.value selected)))
           (fun _ => bind (set_showDashboardDialog false)
              (fun _ => log (Notify "success" "Success"
                               "Chart added to dashboard")))) w
      = match s with
        | Fulfilled _ =>
            (Resolved tt,
             {| toDashboard := toDashboard w; showDashboardDialog := false;
                addingToDashboard := addingToDashboard w;
                trace := trace w
                         ++ [AddToDashboard (ChartBlock.value selected);
                             Notify "success" "Success"
                               "Chart added to dashboard"] |})
        | Failed payload =>
            (Rejected (Rejection payload),
             {| toDashboard := toDashboard w;
                showDashboardDialog := showDashboardDialog w;
                addingToDashboard := addingToDashboard w;
                trace := trace w
                         ++ [AddToDashboard (ChartBlock.value selected)] |})
        end).
    { intros s Hs. unfold bind, log, set_showDashboardDialog, modify. simpl.
      rewrite Hs. destruct s; simpl; [|reflexivity].
      now rewrite <- app_assoc. }
    split; [|split].
    + intros sel Hsel. injection Hsel as <-. split.
      * intros Hf. now rewrite (Hcases _ Hf), E.
      * intros payload Hf. now rewrite (Hcases _ Hf), E.
    + rewrite (Hcases _ eq_refl).
      destruct (chart_addToDashboard c (ChartBlock.value selected));
        simpl; congruence.
    + rewrite (Hcases _ eq_refl).
      now destruct (chart_addToDashboard c (ChartBlock.value selected)).
  - split; [reflexivity|]. split; [discriminate|]. simpl. auto.
Qed.

Lemma addToDashboard_spec_witness :
  let c := {| chart_addToDashboard := fun _ => Failed "PermissionError" |} in
  let idle := {| toDashboard := None; showDashboardDialog := true;
                 addingToDashboard := false; trace := [] |} in
  let chosen := {| toDashboard :=
                     Some {| ChartBlock.label := "Sales";
                             ChartBlock.value := "DASH-1" |};
                   showDashboardDialog := true;
                   addingToDashboard := false; trace := [] |} in
  addToDashboard c idle = (Resolved tt, idle)
  /\ addToDashboard c chosen
     = (Rejected (Rejection "PermissionError"),
        {| toDashboard := toDashboard chosen; showDashboardDialog := true;
           addingToDashboard := false;
           trace := [AddToDashboard "DASH-1"] |}).
Proof.
  intros c idle chosen. split.
  - apply (proj1 (addToDashboard_spec c idle)). reflexivity.
  - apply (proj2 (proj1 (proj2 (addToDashboard_spec c chosen))
                    {| ChartBlock.label := "Sales";
                       ChartBlock.value := "DASH-1" |} eq_refl)
             "PermissionError").
    reflexivity.
Defined.

End ChartBlockActionsSpec.

(** ** The query list page, continued *)

Module QueryListFormSpec.
Import Async QueryListForm.

Lemma truthy_string (s : string) :
  Js.truthy (Some s) = true <-> s <> EmptyString.
Proof. destruct s; simpl; split; congruence. Qed.

(** X7. Creating is enabled exactly when a data source and a title are
    filled in and no creation is under way; the placeholder entry of the
    data source options counts as no data source. A creation that
    succeeds empties the form, which disables creating again, and then
    sends the router to the new query; a creation that fails keeps what
    was typed and goes nowhere. *)
Theorem createQuery_form (c : collaborators) (w : world) :
  (createDisabled w = false <->
   dataSource (newQuery w) <> EmptyString
   /\ query_title (newQuery w) <> EmptyString
   /\ queries_creating w = false)
  /\ (forall sources placeholder,
      head (dataSourceOptions sources) = Some placeholder ->
      dataSource (newQuery w) = value placeholder ->
      createDisabled w = true)
  /\ (forall name,
      queries_create c (dataSource (newQuery w)) (query_title (newQuery w))
      = Fulfilled name ->
      createQuery c w
      = (Resolved tt,
         {| newQuery := {| dataSource := EmptyString;
                           query_title := EmptyString |};
            queries_creating := queries_creating w;
            trace := trace w
                     ++ [CreateQuery (dataSource (newQuery w))
                           (query_title (newQuery w));
                         NextTick;
                         RouterPush "QueryBuilder" [("name", name)]] |})
      /\ createDisabled (snd (createQuery c w)) = true)
  /\ (forall payload,
      queries_create c (dataSource (newQuery w)) (query_title (newQuery w))
      = Failed payload ->
      createQuery c w
      = (Rejected (Rejection payload),
         {| newQuery := newQuery w;
            queries_creating := queries_creating w;
            trace := trace w
                     ++ [CreateQuery (dataSource (newQuery w))
                           (query_title (newQuery w))] |})).
Proof.
  split; [|split; [|split]].
  - unfold createDisabled.
    rewrite <- !truthy_string.
    destruct (Js.truthy (Some (dataSource (newQuery w))));
      destruct (Js.truthy (Some (query_title (newQuery w))));
      destruct (queries_creating w); simpl; intuition congruence.
  - intros sources placeholder Hh Hd. simpl in Hh. injection Hh as <-.
    unfold createDisabled. rewrite Hd. reflexivity.
  - intros name Hc.
    assert (Hrun : createQuery c w
      = (Resolved tt,
         {| newQuery := {| dataSource := EmptyString;
                           query_title := EmptyString |};
            queries_creating := queries_creating w;
            trace := trace w
                     ++ [CreateQuery (dataSource (newQuery w))
                           (query_title (newQuery w));
                         NextTick;
                         RouterPush "QueryBuilder" [("name", name)]] |})).
    { unfold createQuery, bind, log, set_newQuery, modify. simpl.
      rewrite Hc. simpl. now rewrite <- !app_assoc. }
    split; [exact Hrun|]. now rewrite Hrun.
  - intros payload Hc.
    unfold createQuery, bind, log, set_newQuery, modify. simpl.
    now rewrite Hc.
Qed.

Lemma createQuery_form_witness :
  let c := {| queries_create := fun _ _ => Fulfilled "QRY-001" |} in
  let w := {| newQuery := {| dataSource := "Demo Data";
                             query_title := "Revenue" |};
              queries_creating := false; trace := [] |} in
  createDisabled w = false
  /\ createDisabled (snd (createQuery c w)) = true.
Proof.
  intros c w. split.
  - apply (proj1 (createQuery_form c w)). repeat split; discriminate.
  - apply (proj1 (proj2 (proj2 (createQuery_form c w))) "QRY-001").
    reflexivity.
Defined.

End QueryListFormSpec.

Module QueryListMore.
Import Async QueryList.

(** X8. For every type other than ['notebook'], [openQueryEditor] never
    looks at the notebooks. It asks once for a query to be created,
    assisted for ['visual'], not assisted for ['classic'] and with the
    choice left open for any other type, and goes to the query builder of
    the new query; when the creation fails it goes nowhere. *)
Theorem openQueryEditor_query (c : collaborators) (l l' : list notebook)
    (type : string) :
  type <> "notebook" ->
  exists flag : option Z,
    (type = "visual" -> flag = Some 1%Z)
    /\ (type = "classic" -> flag = Some 0%Z)
    /\ (type <> "visual" -> type <> "classic" -> flag = None)
    /\ openQueryEditor c l type []
       = match queries_create c flag with
         | Fulfilled query =>
             (Resolved tt,
              [CreateQuery flag;
               RouterPush "QueryBuilder" [("name", query_name query)]])
         | Failed payload => (Rejected (Rejection payload), [CreateQuery flag])
         end
    /\ openQueryEditor c l' type [] = openQueryEditor c l type [].
Proof.
  intros Hn. apply String.eqb_neq in Hn.
  unfold openQueryEditor. rewrite Hn.
  exists (if String.eqb type "classic" then Some 0%Z
          else if String.eqb type "visual" then Some 1%Z else None).
  repeat split.
  - intros ->. reflexivity.
  - intros ->. reflexivity.
  - intros Hv Hc. apply String.eqb_neq in Hv, Hc. now rewrite Hv, Hc.
  - unfold bind, log, modify. simpl.
    destruct (queries_create c _); reflexivity.
Qed.

Lemma openQueryEditor_query_witness :
  openQueryEditor Samples.queries Samples.notebooks_list "visual" []
  = openQueryEditor Samples.queries [] "visual" [].
Proof.
  destruct (openQueryEditor_query Samples.queries [] Samples.notebooks_list
              "visual") as (flag & _ & _ & _ & _ & H).
  - discriminate.
  - exact H.
Defined.

(** X9. On the query list page, choosing [Notebook] while no notebook is
    titled [Uncategorized] changes nothing on the page: no page is
    created, the router is not called, the dialog stays as it is, and the
    dialog emits nothing. The rejection of the dropped promise is all
    that is left of the click. *)
Theorem notebook_choice_without_uncategorized (c : collaborators)
    (l : list notebook) (p : page)
    (w : NewDialogWithTypes.world page) :
  (forall nb, In nb l -> title nb <> "Uncategorized") ->
  NewDialogWithTypes.caller w = p ->
  NewDialogWithTypes.click (dialog_props c l p) 0 w
  = {| NewDialogWithTypes.emits := NewDialogWithTypes.emits w;
       NewDialogWithTypes.calls := NewDialogWithTypes.calls w ++ [(0%nat, [])];
       NewDialogWithTypes.caller := p |}.
Proof.
  intros Hnone <-. unfold NewDialogWithTypes.click. simpl.
  unfold open_editor, openQueryEditor. simpl.
  rewrite (proj2 (QueryListSpec.find_uncategorized_None l) Hnone). simpl.
  now destruct (NewDialogWithTypes.caller w).
Qed.

Lemma notebook_choice_without_uncategorized_witness :
  let p := {| new_dialog := true; effects := [] |} in
  let l := [ {| name := "NB-1"; title := "Research" |} ] in
  NewDialogWithTypes.caller
    (NewDialogWithTypes.click (dialog_props Samples.queries l p) 0
       {| NewDialogWithTypes.emits := []; NewDialogWithTypes.calls := [];
          NewDialogWithTypes.caller := p |})
  = p.
Proof.
  intros p l.
  rewrite (notebook_choice_without_uncategorized Samples.queries l p).
  - reflexivity.
  - intros nb [<-|[]]. discriminate.
  - reflexivity.
Defined.

End QueryListMore.

(** ** [NewDialogWithTypes.vue], continued *)

Module NewDialogWithTypesMore.
Import NewDialogWithTypes.

Lemma click_in_range {P : Type} (p : props P) (i : nat) (w : world P) :
  emits (click p i w) = emits w
  /\ calls (click p i w)
     = calls w ++ (if (i <? length (types p))%nat then [(i, [])] else []).
Proof.
  unfold click. destruct (Nat.ltb_spec i (length (types p))) as [Hlt|Hge].
  - destruct (lookup_lt_is_Some_2 (types p) i Hlt) as [t Ht].
    rewrite Ht. simpl. auto.
  - rewrite (lookup_ge_None_2 (types p) i Hge). now rewrite app_nil_r.
Qed.

(** X10. Over any sequence of clicks the dialog emits nothing, so it is
    never closed by a choice, and it makes exactly one handler call per
    click on an existing entry, in the order of the clicks and without
    arguments; a click beyond the entries calls nothing. *)
Theorem clicks_call_in_order {P : Type} (p : props P) (indices : list nat)
    (w : world P) :
  emits (fold_left (fun w i => click p i w) indices w) = emits w
  /\ calls (fold_left (fun w i => click p i w) indices w)
     = calls w
       ++ map (fun i => (i, []))
            (List.filter (fun i => (i <? length (types p))%nat) indices).
Proof.
  revert w. induction indices as [|i indices IH]; intros w; simpl.
  - now rewrite app_nil_r.
  - destruct (IH (click p i w)) as [He Hc].
    destruct (click_in_range p i w) as [He1 Hc1].
    rewrite He, Hc, He1, Hc1. split; [reflexivity|].
    destruct (i <? length (types p))%nat; simpl.
    + now rewrite <- app_assoc.
    + now rewrite app_nil_r.
Qed.

End NewDialogWithTypesMore.

(** ** The query selector of the dashboard widgets *)

Module QuerySelectorSpec.
Import Async QuerySelector.

Section Selector.
Context {Store : Type} (c : collaborators Store).

Lemma createQuery_cases (w : world Store) :
  createQuery c w
  = let (s, q) := queries_create c 1%Z (queries w) in
    match s with
    | Fulfilled created =>
        (Resolved tt,
         {| showCreateQuery := true; newQuery := Some created;
            queries := q; trace := trace w ++ [Create 1] |})
    | Failed payload =>
        (Rejected (Rejection payload),
         {| showCreateQuery := showCreateQuery w; newQuery := newQuery w;
            queries := q; trace := trace w ++ [Create 1] |})
    end.
Proof.
  unfold createQuery, call, bind, log, modify. simpl.
  destruct (queries_create c 1%Z (queries w)) as [[created|payload] q];
    reflexivity.
Qed.

Lemma deleteQuery_cases (w : world Store) :
  deleteQuery c w
  = match newQuery w with
    | None => (Rejected (TypeError "Cannot read properties of null"), w)
    | Some target =>
        let (s, q) := queries_delete c (name target) (queries w) in
        match s with
        | Fulfilled _ =>
            (Resolved tt,
             {| showCreateQuery := false; newQuery := None; queries := q;
                trace := trace w ++ [Delete (name target)] |})
        | Failed payload =>
            (Rejected (Rejection payload),
             {| showCreateQuery := showCreateQuery w; newQuery := newQuery w;
                queries := q; trace := trace w ++ [Delete (name target)] |})
        end
    end.
Proof.
  unfold deleteQuery, newQuery_name, call, bind, log, modify.
  destruct (newQuery w) as [target|] eqn:E; simpl; [|reflexivity].
  destruct (queries_delete c (name target) (queries w)) as [[u|payload] q];
    simpl; rewrite ?E; reflexivity.
Qed.

Lemma selectQuery_cases (w : world Store) :
  selectQuery c w
  = let (s, q) := queries_reload c (queries w) in
    match s with
    | Failed payload =>
        (Rejected (Rejection payload),
         {| showCreateQuery := showCreateQuery w; newQuery := newQuery w;
            queries := q; trace := trace w ++ [Reload] |})
    | Fulfilled _ =>
        match newQuery w with
        | None =>
            (Rejected (TypeError "Cannot read properties of null"),
             {| showCreateQuery := showCreateQuery w; newQuery := None;
                queries := q; trace := trace w ++ [Reload] |})
        | Some chosen =>
            (Resolved tt,
             {| showCreateQuery := false; newQuery := None; queries := q;
                trace := trace w
                         ++ [Reload; Emit "update:modelValue" (name chosen)] |})
        end
    end.
Proof.
  unfold selectQuery, newQuery_name, call, bind, log, modify. simpl.
  destruct (queries_reload c (queries w)) as [[u|payload] q]; simpl;
    [|reflexivity].
  destruct (newQuery w) as [chosen|]; simpl; [|reflexivity].
  now rewrite <- app_assoc.
Qed.

Lemma handle_dialog_has_query (w : world Store) (h : handler) :
  dialog_has_query w -> dialog_has_query (handle c w h).
Proof.
  unfold dialog_has_query. intros Hw. destruct h; simpl.
  - rewrite createQuery_cases.
    destruct (queries_create c 1%Z (queries w)) as [[created|payload] q];
      simpl; [discriminate|exact Hw].
  - rewrite deleteQuery_cases. destruct (newQuery w) as [target|] eqn:E.
    + destruct (queries_delete c (name target) (queries w))
        as [[u|payload] q]; simpl; [discriminate|].
      intros _. discriminate.
    + simpl. rewrite E. exact Hw.
  - rewrite selectQuery_cases.
    destruct (queries_reload c (queries w)) as [[u|payload] q]; simpl.
    + destruct (newQuery w) as [chosen|] eqn:E; simpl; [discriminate|exact Hw].
    + exact Hw.
Qed.

(** X11. Whatever the handlers are called with and however the server
    answers, the create-query dialog is never open without a query to
    show: [showCreateQuery] implies that [newQuery] is set, after any
    sequence of create, discard and done. *)
Theorem dialog_always_has_query (w : world Store) (hs : list handler) :
  dialog_has_query w -> dialog_has_query (run c w hs).
Proof.
  revert w. induction hs as [|h hs IH]; intros w Hw; [exact Hw|].
  apply (IH (handle c w h)). now apply handle_dialog_has_query.
Qed.

(** X12. Done after a creation hands the caller exactly the query that
    was created: it reloads the queries, emits [update:modelValue] with
    the name of the created query, and closes the dialog with [newQuery]
    cleared. Discard after a creation deletes exactly the created query,
    emits nothing, and closes the dialog the same way. *)
Theorem create_then_done_or_discard (w : world Store) (created : query)
    (q1 : Store) :
  queries_create c 1%Z (queries w) = (Fulfilled created, q1) ->
  (forall q2, queries_reload c q1 = (Fulfilled tt, q2) ->
     selectQuery c (snd (createQuery c w))
     = (Resolved tt,
        {| showCreateQuery := false; newQuery := None; queries := q2;
           trace := trace w
                    ++ [Create 1; Reload;
                        Emit "update:modelValue" (name created)] |}))
  /\ (forall q2, queries_delete c (name created) q1 = (Fulfilled tt, q2) ->
     deleteQuery c (snd (createQuery c w))
     = (Resolved tt,
        {| showCreateQuery := false; newQuery := None; queries := q2;
           trace := trace w ++ [Create 1; Delete (name created)] |})).
Proof.
  intros Hc. rewrite createQuery_cases, Hc. simpl. split.
  - intros q2 Hr. rewrite selectQuery_cases. simpl. rewrite Hr.
    now rewrite <- app_assoc.
  - intros q2 Hd. rewrite deleteQuery_cases. simpl. rewrite Hd.
    now rewrite <- app_assoc.
Qed.

Lemma selectQuery_resume_cases (w : world Store) :
  selectQuery_resume w
  = match newQuery w with
    | None => (Rejected (TypeError "Cannot read properties of null"), w)
    | Some chosen =>
        (Resolved tt,
         {| showCreateQuery := false; newQuery := None; queries := queries w;
            trace := trace w ++ [Emit "update:modelValue" (name chosen)] |})
    end.
Proof.
  unfold selectQuery_resume, newQuery_name, bind, log, modify.
  destruct (newQuery w) as [chosen|] eqn:E; simpl; rewrite ?E; reflexivity.
Qed.

Lemma selectQuery_begin_cases (w : world Store) :
  selectQuery_begin c w
  = let (s, q) := queries_reload c (queries w) in
    (match s with
     | Fulfilled _ => Resolved tt
     | Failed payload => Rejected (Rejection payload)
     end,
     {| showCreateQuery := showCreateQuery w; newQuery := newQuery w;
        queries := q; trace := trace w ++ [Reload] |}).
Proof.
  unfold selectQuery_begin, call, bind, log, modify. simpl.
  destruct (queries_reload c (queries w)) as [[[]|payload] q]; reflexivity.
Qed.

(** X13. Discard reads the name of the query before it asks anything of
    the server: with no query it is rejected with a [TypeError] and
    leaves everything as it was, with a query it never raises one. Done
    reloads the queries first, whether there is a query or not, and reads
    the name when the reload has settled: it raises the [TypeError]
    exactly when no query is left at that moment, emitting nothing. A
    query that was there when Done was clicked does not prevent it: if
    Discard runs while the reload is pending, Done resumes without a
    query and is rejected. *)
Theorem discard_and_done_without_query (w : world Store) :
  (newQuery w = None ->
   deleteQuery c w
   = (Rejected (TypeError "Cannot read properties of null"), w))
  /\ (newQuery w <> None ->
      forall msg, fst (deleteQuery c w) <> Rejected (TypeError msg))
  /\ selectQuery c w
     = bind (selectQuery_begin c) (fun _ => selectQuery_resume) w
  /\ (trace (snd (selectQuery_begin c w)) = trace w ++ [Reload]
      /\ newQuery (snd (selectQuery_begin c w)) = newQuery w
      /\ showCreateQuery (snd (selectQuery_begin c w)) = showCreateQuery w)
  /\ ((exists msg, fst (selectQuery_resume w) = Rejected (TypeError msg))
      <-> newQuery w = None)
  /\ (newQuery w = None ->
      selectQuery_resume w
      = (Rejected (TypeError "Cannot read properties of null"), w))
  /\ (forall target u1 u2 q1 q2,
      newQuery w = Some target ->
      queries_reload c (queries w) = (Fulfilled u1, q1) ->
      queries_delete c (name target) q1 = (Fulfilled u2, q2) ->
      let pending := snd (selectQuery_begin c w) in
      let discarded := snd (deleteQuery c pending) in
      selectQuery_resume discarded
      = (Rejected (TypeError "Cannot read properties of null"), discarded)
      /\ trace discarded = trace w ++ [Reload; Delete (name target)]).
Proof.
  split; [|split; [|split; [|split; [|split; [|split]]]]].
  - intros Hn. now rewrite deleteQuery_cases, Hn.
  - intros Hn msg. rewrite deleteQuery_cases.
    destruct (newQuery w) as [target|]; [|congruence].
    destruct (queries_delete c (name target) (queries w))
      as [[u|payload] q]; simpl; discriminate.
  - reflexivity.
  - rewrite selectQuery_begin_cases.
    destruct (queries_reload c (queries w)) as [s q]. simpl. auto.
  - rewrite selectQuery_resume_cases. split.
    + intros [msg H]. destruct (newQuery w); [discriminate|reflexivity].
    + intros ->. eexists. reflexivity.
  - intros Hn. now rewrite selectQuery_resume_cases, Hn.
  - intros target u1 u2 q1 q2 Hn Hr Hd pending discarded.
    subst discarded pending.
    rewrite selectQuery_begin_cases, Hr. simpl.
    rewrite deleteQuery_cases. simpl. rewrite Hn, Hd. simpl.
    rewrite selectQuery_resume_cases. simpl.
    split; [reflexivity|]. now rewrite <- app_assoc.
Qed.

End Selector.

Lemma dialog_always_has_query_witness :
  let c := {| queries_create := fun _ n => (Fulfilled {| name := "QRY-001" |}, S n);
              queries_delete := fun _ n => (Failed "LinkExistsError", n);
              queries_reload := fun n => (Fulfilled tt, n) |} in
  let w := {| showCreateQuery := false; newQuery := None; queries := 0%nat;
              trace := [] |} in
  dialog_has_query
    (run c w [OnDone; OnCreateOption; OnDiscard; OnDone; OnDiscard]).
Proof.
  intros c w. apply dialog_always_has_query. intros H. discriminate.
Defined.

Lemma create_then_done_or_discard_witness :
  let c := {| queries_create := fun _ n => (Fulfilled {| name := "QRY-001" |}, S n);
              queries_delete := fun _ n => (Fulfilled tt, pred n);
              queries_reload := fun n => (Fulfilled tt, n) |} in
  let w := {| showCreateQuery := false; newQuery := None; queries := 0%nat;
              trace := [] |} in
  trace (snd (selectQuery c (snd (createQuery c w))))
  = [Create 1; Reload; Emit "update:modelValue" "QRY-001"].
Proof.
  intros c w.
  rewrite (proj1 (create_then_done_or_discard c w {| name := "QRY-001" |} 1%nat
                    eq_refl) 1%nat eq_refl).
  reflexivity.
Defined.

Lemma discard_and_done_without_query_witness :
  let c := {| queries_create := fun _ n => (Fulfilled {| name := "QRY-001" |}, S n);
              queries_delete := fun _ n => (Fulfilled tt, pred n);
              queries_reload := fun n => (Fulfilled tt, n) |} in
  let w := {| showCreateQuery := false; newQuery := None; queries := 0%nat;
              trace := [] |} in
  let open := {| showCreateQuery := true;
                 newQuery := Some {| name := "QRY-001" |};
                 queries := 1%nat; trace := [] |} in
  deleteQuery c w = (Rejected (TypeError "Cannot read properties of null"), w)
  /\ fst (selectQuery_resume
            (snd (deleteQuery c (snd (selectQuery_begin c open)))))
     = Rejected (TypeError "Cannot read properties of null").
Proof.
  intros c w open. split.
  - apply (proj1 (discard_and_done_without_query c w)). reflexivity.
  - destruct (discard_and_done_without_query c open)
      as (_ & _ & _ & _ & _ & _ & Hrace).
    destruct (Hrace {| name := "QRY-001" |} tt tt 1%nat 0%nat
                eq_refl eq_refl eq_refl) as [H _].
    exact (f_equal fst H).
Defined.

End QuerySelectorSpec.

(** ** [DashboardWidgetsOptions.vue] *)

Module DashboardWidgetsOptionsSpec.
Import DashboardWidgetsOptions.

Lemma run_app (w : world) (ds1 ds2 : list drag) :
  run w (ds1 ++ ds2) = run (run w ds1) ds2.
Proof. apply fold_left_app. Qed.

Lemma run_emits (ds : list drag) (w : world) :
  emits (run w ds) = emits w ++ map emission ds.
Proof.
  revert w. induction ds as [|d ds IH]; intros w; simpl.
  - now rewrite app_nil_r.
  - change (emits (run (handle w d) ds) = emits w ++ emission d :: map emission ds).
    rewrite IH. destruct d; simpl; now rewrite <- app_assoc.
Qed.

Lemma run_drag_ends (n : nat) (w : world) :
  draggingWidget (run w (repeat DragEnd n)) = draggingWidget w.
Proof.
  revert w. induction n as [|n IH]; intros w; [reflexivity|].
  simpl. change (draggingWidget (run (onDragEnd w) (repeat DragEnd n))
                 = draggingWidget w).
  now rewrite IH.
Qed.

(** X14. Every drag event is announced, one [dragChange] per event and in
    order, a drag end with [false]. The dragged widget recorded on the
    dashboard is the one of the last drag start: ending the drag, any
    number of times, does not clear it. *)
Theorem drag_events (w : world) (before : list drag) (widget : widget)
    (n : nat) :
  let ds := before ++ DragStart widget :: repeat DragEnd n in
  emits (run w ds) = emits w ++ map emission ds
  /\ draggingWidget (run w ds) = Some widget
  /\ draggingWidget (run w (repeat DragEnd n)) = draggingWidget w.
Proof.
  simpl. split; [apply run_emits|]. split; [|apply run_drag_ends].
  rewrite run_app.
  change (run (run w before) (DragStart widget :: repeat DragEnd n))
    with (run (onDragStart widget (run w before)) (repeat DragEnd n)).
  now rewrite run_drag_ends.
Qed.

End DashboardWidgetsOptionsSpec.

(** ** [Toast.vue], continued *)

Module ToastAppearanceSpec.
Import ToastAppearance.

Lemma known_appearance (a : string) :
  In a appearance <->
  a = "success" \/ a = "info" \/ a = "warning" \/ a = "error".
Proof. unfold appearance. simpl. intuition congruence. Qed.

Ltac by_appearance a :=
  destruct (String.eqb_spec a "success") as [->|?];
  [|destruct (String.eqb_spec a "info") as [->|?];
    [|destruct (String.eqb_spec a "warning") as [->|?];
      [|destruct (String.eqb_spec a "error") as [->|?]]]].

Ltac defined_or_not :=
  split;
  [ intros; first [ eexists; reflexivity | intuition congruence ]
  | intros Hs; first [ auto 6; fail
                     | destruct Hs as [? Hs]; discriminate Hs ] ].

Lemma appearanceClasses_defined (a : string) :
  In a appearance <-> is_Some (appearanceClasses a).
Proof.
  rewrite known_appearance. unfold appearanceClasses.
  by_appearance a; simpl; defined_or_not.
Qed.

Lemma appearanceIcon_defined (a : string) :
  In a appearance <-> is_Some (appearanceIcon a).
Proof.
  rewrite known_appearance. unfold appearanceIcon.
  by_appearance a; simpl; defined_or_not.
Qed.

Lemma appearanceIconClasses_defined (a : string) :
  In a appearance <-> is_Some (appearanceIconClasses a).
Proof.
  rewrite known_appearance. unfold appearanceIconClasses.
  by_appearance a; simpl; defined_or_not.
Qed.

Lemma appearanceIcon_truthy (a : string) :
  Js.truthy (appearanceIcon a) = true <-> is_Some (appearanceIcon a).
Proof.
  unfold appearanceIcon.
  by_appearance a; simpl; split; intros H; eauto;
    try reflexivity; try discriminate; destruct H; discriminate.
Qed.

(** X15. The three computed looks of a toast are defined for exactly the
    same appearances, the four of the [appearance] list; for any other
    appearance they are all undefined. The icon is rendered exactly when
    an icon is given or the appearance is one of the four, and a given
    icon takes the place of the icon of the appearance. *)
Theorem appearance_looks (a : string) (icon : option string) :
  (In a appearance <-> is_Some (appearanceClasses a))
  /\ (In a appearance <-> is_Some (appearanceIcon a))
  /\ (In a appearance <-> is_Some (appearanceIconClasses a))
  /\ (icon_rendered icon a = true <->
      Js.truthy icon = true \/ In a appearance)
  /\ (Js.truthy icon = true -> icon_name icon a = icon).
Proof.
  split; [apply appearanceClasses_defined|].
  split; [apply appearanceIcon_defined|].
  split; [apply appearanceIconClasses_defined|].
  unfold icon_rendered, icon_name. destruct (Js.truthy icon) eqn:Ei.
  - split; [|reflexivity]. rewrite Ei. tauto.
  - split; [|discriminate].
    rewrite appearanceIcon_truthy, <- appearanceIcon_defined.
    split; [tauto|]. intros [H|H]; [discriminate|exact H].
Qed.

Lemma appearance_looks_witness :
  icon_name (Some "bell") "custom" = Some "bell"
  /\ icon_rendered None "custom" = false
  /\ icon_rendered None "warning" = true.
Proof.
  destruct (appearance_looks "custom" (Some "bell")) as (_ & _ & _ & _ & Hn).
  split; [apply Hn; reflexivity|]. split; reflexivity.
Defined.

End ToastAppearanceSpec.

Module ToastPageSpec.
Import Toast ToastPage.














End ToastPageSpec.
